(** * The DingTalk adapter of NoneBot, embedded in Rocq

    A shallow embedding of [nonebot/adapters/ding/adapter.py]: the inbound
    webhook handler ([_check_signature], [_handle_http]) and the outbound
    call path ([_call_api]).  Python values are data, the adapter's mutable
    state and its observable effects (log lines, registry updates, spawned
    tasks, HTTP requests) are threaded through a small state/trace/error
    monad, and everything the adapter only consumes (the signing helper,
    the JSON codec, the event and message classes, the host's task
    scheduler) is an interface, [Host]. *)

From Stdlib Require Import String Ascii ZArith NArith List Lia Bool Floats DecimalString.
Import ListNotations.
Local Open Scope string_scope.
Local Open Scope Z_scope.
Set Warnings "-register-all".

(** ** Python values *)

Module Py.

(** What [json.loads] returns: [None], [bool], [int], [float], [str],
    [list], and [dict] with string keys in document order. *)
Inductive json : Type :=
| JNone
| JBool (b : bool)
| JInt (z : Z)
| JFloat (f : float)
| JStr (s : string)
| JList (l : list json)
| JDict (d : list (string * json)).

(** The exceptions that travel through the adapter.  [NetworkError]
    keeps the [__cause__] set by [raise ... from e]. *)
Inductive exn : Type :=
| KeyError (key : string)
| TypeError
| ValueError (msg : string)
| JSONDecodeError
| ValidationError
| RuntimeError (msg : string)
| SessionExpired
| ApiNotAvailable
| ActionFailed (errcode errmsg : json)
| NetworkError (msg : string) (cause : option exn)
| OverflowError (msg : string).

(** A computation either returns or raises. *)
Inductive res (A : Type) : Type :=
| Ok (a : A)
| Raise (e : exn).
Arguments Ok {A} a.
Arguments Raise {A} e.

(** Truthiness of [str | bytes | None]. *)
Definition truthy (x : option string) : bool :=
  match x with
  | Some (String _ _) => true
  | _ => false
  end.

(** [str(x)] for [x : Optional[str]]. *)
Definition str (x : option string) : string :=
  match x with
  | Some s => s
  | None => "None"
  end.

(** [a == b] for [a : Optional[str]] and [b : str]. *)
Definition opt_str_eqb (a : option string) (b : string) : bool :=
  match a with
  | Some s => String.eqb s b
  | None => false
  end.

(** [str(n)] for an [int]. *)
Definition str_of_int (z : Z) : string :=
  NilZero.string_of_int (Z.to_int z).

(** The fraction [a / b], [b > 0], rounded to the nearest integer, the
    even one in a tie: the rounding of [round(x)]. *)
Definition round_div (a b : Z) : Z :=
  let q := a / b in
  let r := a mod b in
  if 2 * r <? b then q
  else if b <? 2 * r then q + 1
  else if Z.even q then q else q + 1.

(** A binary64 float is a [float]; [Prim2SF] gives what it denotes: a
    zero, an infinity, a NaN, or the finite value
    [signed s m * 2 ^ e]. *)
Definition signed (s : bool) (m : positive) : Z :=
  if s then Z.neg m else Z.pos m.

Definition finite (x : float) : bool :=
  match Prim2SF x with
  | S754_zero _ | S754_finite _ _ _ => true
  | _ => false
  end.

(** [int(x)] for a float: the value with its fraction dropped. *)
Definition sf_int (x : spec_float) : res Z :=
  match x with
  | S754_nan => Raise (ValueError "cannot convert float NaN to integer")
  | S754_infinity _ => Raise (OverflowError "cannot convert float infinity to integer")
  | S754_zero _ => Ok 0
  | S754_finite s m e =>
      Ok (if 0 <=? e then signed s m * 2 ^ e else Z.quot (signed s m) (2 ^ (- e)))
  end.

Definition py_int (x : float) : res Z := sf_int (Prim2SF x).

(** [round(x)] for a float: the nearest integer, the even one in a tie. *)
Definition py_round (x : float) : res Z :=
  match Prim2SF x with
  | S754_nan => Raise (ValueError "cannot convert float NaN to integer")
  | S754_infinity _ => Raise (OverflowError "cannot convert float infinity to integer")
  | S754_zero _ => Ok 0
  | S754_finite s m e =>
      Ok (if 0 <=? e then signed s m * 2 ^ e else round_div (signed s m) (2 ^ (- e)))
  end.

(** An [int] as the operand of a float operation, exactly. *)
Definition Z2SF (z : Z) : spec_float :=
  match z with
  | Z0 => S754_zero false
  | Zpos p => S754_finite false p 0
  | Zneg p => S754_finite true p 0
  end.

(** [a / b] for two [int]s, [b] not zero: the exact quotient rounded
    to binary64, [OverflowError] when that is out of range. *)
Definition int_true_div (a b : Z) : res spec_float :=
  match SFdiv prec emax (Z2SF a) (Z2SF b) with
  | S754_infinity _ =>
      Raise (OverflowError "integer division result too large for a float")
  | q => Ok q
  end.

(** What [int] and [round] mean: [x] is the value of [q] with its
    fraction dropped; [x] is the integer nearest to the value of [q],
    the even one of two. *)
Definition truncation (q : spec_float) (x : Z) : Prop :=
  match q with
  | S754_zero _ => x = 0
  | S754_finite s m e =>
      if 0 <=? e then x = signed s m * 2 ^ e
      else Z.abs x * 2 ^ (- e) <= Z.pos m < (Z.abs x + 1) * 2 ^ (- e)
           /\ 0 <= x * signed s m
  | _ => False
  end.

Definition nearest_even (q : spec_float) (x : Z) : Prop :=
  match q with
  | S754_zero _ => x = 0
  | S754_finite s m e =>
      if 0 <=? e then x = signed s m * 2 ^ e
      else 2 * Z.abs (x * 2 ^ (- e) - signed s m) <= 2 ^ (- e)
           /\ (2 * Z.abs (x * 2 ^ (- e) - signed s m) = 2 ^ (- e) -> Z.even x = true)
  | _ => False
  end.

(** [d.get(k)] on a decoded JSON object. *)
Fixpoint dict_get (d : list (string * json)) (k : string) : option json :=
  match d with
  | [] => None
  | (k', v) :: d' => if String.eqb k' k then Some v else dict_get d' k
  end.

(** [d.get(k)] where a missing key reads as [None]. *)
Definition dict_get_none (d : list (string * json)) (k : string) : json :=
  match dict_get d k with
  | Some v => v
  | None => JNone
  end.

(** [obj[k]] with a string subscript: only a [dict] supports it. *)
Definition getitem (obj : json) (k : string) : res json :=
  match obj with
  | JDict d =>
      match dict_get d k with
      | Some v => Ok v
      | None => Raise (KeyError k)
      end
  | _ => Raise TypeError
  end.

(** Exact comparison of a [float] with an [int], as [==] does it. *)
Definition float_eqb_int (f : float) (z : Z) : bool :=
  match Prim2SF f with
  | S754_zero _ => z =? 0
  | S754_finite s m e =>
      let v := if s then Z.neg m else Z.pos m in
      if 0 <=? e then z =? v * 2 ^ e else z * 2 ^ (- e) =? v
  | _ => false
  end.

(** [x == n] for a decoded value [x] and an [int] [n]; [bool] is a
    subclass of [int]. *)
Definition eqb_int (x : json) (n : Z) : bool :=
  match x with
  | JBool b => (if b then 1 else 0) =? n
  | JInt z => z =? n
  | JFloat f => float_eqb_int f n
  | _ => false
  end.

(** Whether a value can be a [dict] key. *)
Definition hashable (x : json) : bool :=
  match x with
  | JList _ | JDict _ => false
  | _ => true
  end.

(** Key equality of a [dict] lookup on hashable values: identity or
    [==].  The decoder hands out one [NaN] object, so two decoded
    [NaN]s are the same key. *)
Definition key_eqb (a b : json) : bool :=
  match a, b with
  | JNone, JNone => true
  | JStr s, JStr t => String.eqb s t
  | JBool x, JBool y => Bool.eqb x y
  | JBool x, JInt z | JInt z, JBool x => (if x then 1 else 0) =? z
  | JBool x, JFloat f | JFloat f, JBool x => float_eqb_int f (if x then 1 else 0)
  | JInt x, JInt y => x =? y
  | JInt z, JFloat f | JFloat f, JInt z => float_eqb_int f z
  | JFloat f, JFloat g => PrimFloat.eqb f g || (PrimFloat.is_nan f && PrimFloat.is_nan g)
  | _, _ => false
  end.

(** ASCII lower-casing, for case-insensitive header names. *)
Definition lower_ascii (c : ascii) : ascii :=
  let n := N_of_ascii c in
  if ((65 <=? n) && (n <=? 90))%N then ascii_of_N (n + 32) else c.

Fixpoint lower (s : string) : string :=
  match s with
  | EmptyString => EmptyString
  | String c s' => String (lower_ascii c) (lower s')
  end.

(** [headers.get(name)] on a case-insensitive multi-dict: the first
    value stored under the name, if any. *)
Fixpoint headers_get (h : list (string * string)) (name : string) : option string :=
  match h with
  | [] => None
  | (k, v) :: h' =>
      if String.eqb (lower k) (lower name) then Some v else headers_get h' name
  end.

End Py.

(** ** [urllib.parse] percent-coding *)

Module Urllib.

Definition in_range (lo hi c : ascii) : bool :=
  ((N_of_ascii lo <=? N_of_ascii c) && (N_of_ascii c <=? N_of_ascii hi))%N.

Fixpoint mem (c : ascii) (s : string) : bool :=
  match s with
  | EmptyString => false
  | String c' s' => Ascii.eqb c c' || mem c s'
  end.

(** [_ALWAYS_SAFE]: letters, digits and [_.-~]. *)
Definition always_safe (c : ascii) : bool :=
  in_range "A" "Z" c || in_range "a" "z" c || in_range "0" "9" c || mem c "_.-~".

Definition hex_digit (n : N) : ascii :=
  match n with
  | 0 => "0" | 1 => "1" | 2 => "2" | 3 => "3" | 4 => "4" | 5 => "5"
  | 6 => "6" | 7 => "7" | 8 => "8" | 9 => "9" | 10 => "A" | 11 => "B"
  | 12 => "C" | 13 => "D" | 14 => "E" | _ => "F"
  end%N%char.

(** ['%{:02X}'.format(b)] *)
Definition percent (c : ascii) : string :=
  let n := N_of_ascii c in
  String "%" (String (hex_digit (n / 16)) (String (hex_digit (n mod 16)) EmptyString)).

(** The per-byte quoter of [quote_from_bytes]. *)
Definition quoter (safe : string) (c : ascii) : string :=
  if always_safe c || mem c safe then String c EmptyString else percent c.

(** [quote_from_bytes(bs, safe)]: the quoted bytes joined.  (The
    library's two shortcuts, for empty and for all-safe input, return
    the same string.) *)
Fixpoint quote_from_bytes (bs safe : string) : string :=
  match bs with
  | EmptyString => EmptyString
  | String c bs' => quoter safe c ++ quote_from_bytes bs' safe
  end.

(** [s.replace(a, b)] for single characters. *)
Fixpoint replace (a b : ascii) (s : string) : string :=
  match s with
  | EmptyString => EmptyString
  | String c s' => String (if Ascii.eqb c a then b else c) (replace a b s')
  end.

(** [quote_plus(bs)] with the default [safe='']. *)
Definition quote_plus (bs : string) : string :=
  if negb (mem " " bs) then quote_from_bytes bs EmptyString
  else replace " " "+" (quote_from_bytes bs " ").

Definition hex_value (c : ascii) : option N :=
  let n := N_of_ascii c in
  if in_range "0" "9" c then Some (n - 48)%N
  else if in_range "A" "F" c then Some (n - 55)%N
  else if in_range "a" "f" c then Some (n - 87)%N
  else None.

(** [unquote_to_bytes(s)]: every [%XX] with two hex digits becomes the
    byte, anything else stays. *)
Fixpoint unquote (s : string) : string :=
  match s with
  | EmptyString => EmptyString
  | String c rest =>
      if Ascii.eqb c "%" then
        match rest with
        | String a (String b rest') =>
            match hex_value a, hex_value b with
            | Some x, Some y => String (ascii_of_N (16 * x + y)) (unquote rest')
            | _, _ => String c (unquote rest)
            end
        | _ => String c (unquote rest)
        end
      else String c (unquote rest)
  end.

(** [unquote_plus(s)]: [+] reads as a space, then [unquote]. *)
Definition unquote_plus (s : string) : string :=
  unquote (replace "+" " " s).

End Urllib.

Import Py.

(** ** Data model *)

(** Modelled from the spec: [ConversationType] of event.py, the two
    recognised conversation kinds. *)
Inductive ConversationType : Type :=
| private
| group.

(** Modelled from the spec: the [Event] of event.py, with the fields the
    adapter and the bot read (expiry in epoch milliseconds). *)
Record Event : Type := {
  conversationType : ConversationType;
  conversationId : string;
  senderId : string;
  sessionWebhook : string;
  sessionWebhookExpiredTime : Z
}.

(** Modelled from the spec: [MessageSegment] and [Message] of message.py,
    an ordered sequence of typed fragments; an empty message is falsy. *)
Record MessageSegment : Type := {
  seg_type : string;
  seg_data : json
}.

Definition Message : Type := list MessageSegment.

(** Modelled from the spec: the adapter's [Config] of config.py. *)
Module Config.
Record t : Type := {
  ding_webhook_urlpath : option string;
  secret : string
}.
End Config.

(** [nonebot.drivers.Request], inbound and outbound, by the arguments
    it is constructed from; [headers] is a case-insensitive multi-dict. *)
Module Request.
Record t : Type := {
  method : string;
  url : string;
  headers : list (string * string);
  params : list (string * string);
  timeout : option float;
  content : option string
}.
End Request.

(** [nonebot.drivers.Response]. *)
Module Response.
Record t : Type := {
  status_code : Z;
  content : option string
}.
End Response.

(** A [Bot] object: its [self_id], and the identity of the instance. *)
Record Bot : Type := {
  self_id : json;
  oid : nat
}.

(** The adapter object: its configuration, the host's [api_timeout], the
    registry [bots] (a dict in insertion order), and the allocation
    counter that tells one [Bot] instance from another. *)
Record Adapter : Type := {
  adapter_config : Config.t;
  api_timeout : option float;
  bots : list (json * Bot);
  next_oid : nat
}.

(** The keyword arguments [**data] of [_call_api]. *)
Module Data.
Record t : Type := {
  webhook : option string;
  secret : option string;
  event : option Event;
  message : option Message
}.
End Data.

(** What a call does to the outside world, in order. *)
Inductive effect : Type :=
| Log (level msg : string) (exc : option exn)
| JsonLoads (data : string)
| BotInit (bot : Bot)
| BotConnect (bot : Bot)
| ParseObj (kind : ConversationType) (obj : json)
| CreateTask (bot : Bot) (event : Event)
| HttpRequest (request : Request.t).

(** The clock as the code reads it: [time.time()] and
    [datetime.now().timestamp()], floats both.  The readings of a clock
    are finite, and [time.time()] is still finite in milliseconds. *)
Record Clock : Type := {
  time_time : float;
  now_timestamp : float;
  time_finite : finite (time_time * 1000) = true;
  now_finite : finite now_timestamp = true
}.

(** What [_call_api] reads from the outside world: the clock, and the
    driver's answer to a request, a response or an exception. *)
Record Env : Type := {
  clock : Clock;
  driver_request : Request.t -> res Response.t
}.

(** The clock in whole milliseconds and in whole seconds, as [round]
    and [int] give them, and [int(expiry / 1000)] for an event. *)
Definition millis (c : Clock) : Z :=
  match py_round (time_time c * 1000) with
  | Ok ms => ms
  | Raise _ => 0
  end.

Definition seconds (c : Clock) : Z :=
  match py_int (now_timestamp c) with
  | Ok n => n
  | Raise _ => 0
  end.

Definition too_large : exn :=
  OverflowError "integer division result too large for a float".

Definition expiry_seconds (event : Event) : res Z :=
  match int_true_div (sessionWebhookExpiredTime event) 1000 with
  | Ok quotient => sf_int quotient
  | Raise e => Raise e
  end.

(** What the adapter consumes from the rest of the package and from the
    host.  [calc_hmac_base64 timestamp secret] is utils.py's keyed
    signature, base64 text; [ConversationType_value] is the wire value
    of a [str]-valued enum member; [parse_obj] is the event classes'
    validation; [produce] is [Message._produce]; [create_task] is the
    scheduling of [bot.handle_event(event)]. *)
Class Host : Type := {
  calc_hmac_base64 : string -> string -> string;
  json_loads : string -> res json;
  json_dumps : json -> string;
  repr : json -> string;
  escape_tag : string -> string;
  ConversationType_value : ConversationType -> string;
  parse_obj : ConversationType -> json -> res Event;
  produce : Message -> json;
  create_task : Bot -> Event -> res unit
}.

(** ** The monad of the adapter's methods *)

Definition M (A : Type) : Type := Adapter -> res A * Adapter * list effect.

Definition ret {A} (a : A) : M A := fun self => (Ok a, self, []).

Definition bind {A B} (m : M A) (k : A -> M B) : M B :=
  fun self =>
    match m self with
    | (Ok a, self', t) =>
        let '(r, self'', t') := k a self' in (r, self'', (t ++ t')%list)
    | (Raise e, self', t) => (Raise e, self', t)
    end.

Definition raise {A} (e : exn) : M A := fun self => (Raise e, self, []).

Definition lift {A} (r : res A) : M A := fun self => (r, self, []).

Definition gets {A} (f : Adapter -> A) : M A := fun self => (Ok (f self), self, []).

Definition modify (f : Adapter -> Adapter) : M unit := fun self => (Ok tt, f self, []).

Definition tell (e : effect) : M unit := fun self => (Ok tt, self, [e]).

(** [try: m except Exception as e: ...]: the outcome of [m] as a value. *)
Definition try {A} (m : M A) : M (res A) :=
  fun self => let '(r, self', t) := m self in (Ok r, self', t).

Notation "x <- m ;; k" := (bind m (fun x => k))
  (at level 61, m at next level, right associativity).
Notation "m ;; k" := (bind m (fun _ => k))
  (at level 61, right associativity).

Definition outcome {A} (x : res A * Adapter * list effect) : res A := fst (fst x).
Definition state_of {A} (x : res A * Adapter * list effect) : Adapter := snd (fst x).
Definition trace {A} (x : res A * Adapter * list effect) : list effect := snd x.

(** [x] when truthy, for [if x := ...:] and [if x:]. *)
Definition if_truthy (x : option string) : option string :=
  if truthy x then x else None.

Definition log (level msg : string) (exc : option exn) : M unit :=
  tell (Log level msg exc).

(** ** The registry *)

(** [bots.get(k)] *)
Fixpoint registry_get (r : list (json * Bot)) (k : json) : option Bot :=
  match r with
  | [] => None
  | (k', b) :: r' => if key_eqb k' k then Some b else registry_get r' k
  end.

(** [bots[k] = b] *)
Fixpoint registry_set (r : list (json * Bot)) (k : json) (b : Bot) : list (json * Bot) :=
  match r with
  | [] => [(k, b)]
  | (k', b') :: r' =>
      if key_eqb k' k then (k', b) :: r' else (k', b') :: registry_set r' k b
  end.

(** [self.bots.get(bot_id, None)]; an unhashable key is a [TypeError]. *)
Definition bots_get (bot_id : json) : M (option Bot) :=
  if hashable bot_id then gets (fun self => registry_get (bots self) bot_id)
  else raise TypeError.

(** [Bot(self, bot_id)]: a fresh instance. *)
Definition Bot_init (bot_id : json) : M Bot :=
  fun self =>
    let bot := {| self_id := bot_id; oid := next_oid self |} in
    (Ok bot,
     {| adapter_config := adapter_config self; api_timeout := api_timeout self;
        bots := bots self; next_oid := S (next_oid self) |},
     [BotInit bot]).

(** Modelled from the spec: the host's [bot_connect] registers the bot
    under its [self_id] and notifies the host. *)
Definition bot_connect (bot : Bot) : M unit :=
  modify (fun self =>
    {| adapter_config := adapter_config self; api_timeout := api_timeout self;
       bots := registry_set (bots self) (self_id bot) bot;
       next_oid := next_oid self |}) ;;
  tell (BotConnect bot).

(** ** The adapter's methods *)

Section Adapter.
Context `{Host}.

(** [json.loads(data)] *)
Definition loads (data : string) : M json :=
  tell (JsonLoads data) ;; lift (json_loads data).

(** [escape_tag(x)]: a regular-expression substitution, defined on
    [str] only. *)
Definition escape (x : json) : M string :=
  match x with
  | JStr s => ret (escape_tag s)
  | _ => raise TypeError
  end.

(** [x == ConversationType.k] *)
Definition is_kind (x : json) (k : ConversationType) : bool :=
  match x with
  | JStr s => String.eqb s (ConversationType_value k)
  | _ => false
  end.

(** [cls.parse_obj(obj)] *)
Definition parse (k : ConversationType) (obj : json) : M Event :=
  tell (ParseObj k obj) ;; lift (parse_obj k obj).

(** [sign_base64.decode('utf-8')] is the identity on base64 text. *)
Definition _check_signature (request : Request.t) : M bool :=
  let timestamp := headers_get (Request.headers request) "timestamp" in
  let sign := headers_get (Request.headers request) "sign" in
  secret <- gets (fun self => Config.secret (adapter_config self)) ;;
  let sign_base64 := calc_hmac_base64 (str timestamp) secret in
  if negb (opt_str_eqb sign sign_base64) then
    log "WARNING" "Signature Header is invalid" None ;;
    ret false
  else ret true.

(** The body of the first [try] of [_handle_http]. *)
Definition classify (json_data : json) : M Event :=
  conversation_type <- lift (getitem json_data "conversationType") ;;
  if is_kind conversation_type private then parse private json_data
  else if is_kind conversation_type group then parse group json_data
  else raise (ValueError "Unsupported conversation type").

(** The registry lookup of [_handle_http], and the connection of a
    new [Bot] when the identity is not registered. *)
Definition get_or_connect (bot_id : json) : M Bot :=
  found <- bots_get bot_id ;;
  match found with
  | Some bot => ret bot
  | None =>
      bot <- Bot_init bot_id ;;
      bot_connect bot ;;
      tag <- escape bot_id ;;
      log "INFO" ("<y>Bot " ++ tag ++ "</y> connected") None ;;
      ret bot
  end.

(** Classification and hand-over of [_handle_http].  A handler
    returns a [Response], or [None] on a bare [return]. *)
Definition dispatch (json_data : json) (bot : Bot) : M (option Response.t) :=
  parsed <- try (classify json_data) ;;
  match parsed with
  | Raise e =>
      log "ERROR" "Event Parser Error" (Some e) ;;
      ret None
  | Ok event =>
      match create_task bot event with
      | Ok _ => tell (CreateTask bot event)
      | Raise e =>
          log "ERROR"
            ("<r><bg #f8bbd0>Failed to handle event. Raw: "
               ++ escape_tag (repr json_data) ++ "</bg #f8bbd0></r>")
            (Some e)
      end ;;
      ret (Some {| Response.status_code := 204; Response.content := None |})
  end.

Definition _handle_http (request : Request.t) : M (option Response.t) :=
  ok <- _check_signature request ;;
  if negb ok then
    ret (Some {| Response.status_code := 401; Response.content := None |})
  else
    match if_truthy (Request.content request) with
    | Some data =>
        json_data <- loads data ;;
        bot_id <- lift (getitem json_data "chatbotCorpId") ;;
        bot <- get_or_connect bot_id ;;
        dispatch json_data bot
    | None =>
        ret (Some {| Response.status_code := 400;
                     Response.content := Some "Invalid request body" |})
    end.

(** The host calls the handler once per request; an exception ends
    that request only, and the adapter lives on. *)
Fixpoint serve (requests : list Request.t) : M (list (res (option Response.t))) :=
  match requests with
  | [] => ret []
  | request :: rest =>
      out <- try (_handle_http request) ;;
      outs <- serve rest ;;
      ret (out :: outs)
  end.

(** [await self.request(request)] *)
Definition send (env : Env) (request : Request.t) : M Response.t :=
  tell (HttpRequest request) ;; lift (driver_request env request).

(** The body of the [try] of [_call_api]. *)
Definition exchange (env : Env) (request : Request.t) : M json :=
  response <- send env request ;;
  let status := Response.status_code response in
  decoded <-
    (if (200 <=? status) && (status <? 300) then
       match if_truthy (Response.content response) with
       | None => raise (ValueError "Empty response")
       | Some content =>
           result <- loads content ;;
           match result with
           | JDict d =>
               if negb (eqb_int (dict_get_none d "errcode") 0) then
                 raise (ActionFailed (dict_get_none d "errcode")
                                     (dict_get_none d "errmsg"))
               else ret (Some result)
           | _ => ret None
           end
       end
     else ret None) ;;
  match decoded with
  | Some result => ret result
  | None =>
      raise (NetworkError
               ("HTTP request received unexpected status code: " ++ str_of_int status)
               None)
  end.

(** The addressing of [_call_api]: the target and the query
    parameters. *)
Definition resolve (env : Env) (data : Data.t)
  : M (string * list (string * string)) :=
  match if_truthy (Data.webhook data) with
  | Some webhook =>
      match if_truthy (Data.secret data) with
      | Some secret =>
          ms <- lift (py_round (time_time (clock env) * 1000)) ;;
          let timestamp := str_of_int ms in
          let hmac_code_base64 := calc_hmac_base64 timestamp secret in
          let sign := Urllib.quote_plus hmac_code_base64 in
          ret (webhook, [("timestamp", timestamp); ("sign", sign)])
      | None => ret (webhook, [])
      end
  | None =>
      match Data.event data with
      | Some event =>
          now_s <- lift (py_int (now_timestamp (clock env))) ;;
          quotient <- lift (int_true_div (sessionWebhookExpiredTime event) 1000) ;;
          expiry_s <- lift (sf_int quotient) ;;
          if now_s >? expiry_s
          then raise SessionExpired
          else ret (sessionWebhook event, [])
      | None => raise ApiNotAvailable
      end
  end.

(** The [Request(...)] of [_call_api], by its arguments.  The
    serialisation of the message and the constructor are taken to
    succeed. *)
Definition outbound (webhook : string) (params : list (string * string))
    (timeout : option float) (message : Message) : Request.t :=
  {| Request.method := "POST";
     Request.url := webhook;
     Request.headers := [("Content-Type", "application/json")];
     Request.params := params;
     Request.timeout := timeout;
     Request.content := Some (json_dumps (produce message)) |}.

Definition _call_api (env : Env) (bot : Bot) (api : string) (data : Data.t) : M json :=
  log "DEBUG" ("Calling API <y>" ++ api ++ "</y>") None ;;
  target <- resolve env data ;;
  let '(webhook, params) := target in
  match Data.message data with
  | Some ((_ :: _) as message) =>
      timeout <- gets api_timeout ;;
      let request := outbound webhook params timeout message in
      r <- try (exchange env request) ;;
      match r with
      | Ok result => ret result
      | Raise e => raise (NetworkError "HTTP request failed" (Some e))
      end
  | _ => raise (ValueError "Message not found")
  end.

End Adapter.

(** ** Reading a trace and the registry *)

(** The HTTP requests a call issued, in order. *)
Fixpoint requests_of (t : list effect) : list Request.t :=
  match t with
  | [] => []
  | HttpRequest r :: t' => r :: requests_of t'
  | _ :: t' => requests_of t'
  end.

(** Every [Bot] instance constructed, in order. *)
Fixpoint created_any (t : list effect) : list Bot :=
  match t with
  | [] => []
  | BotInit b :: t' => b :: created_any t'
  | _ :: t' => created_any t'
  end.

(** The events handed to a [Bot], in order. *)
Fixpoint tasks_of (t : list effect) : list (Bot * Event) :=
  match t with
  | [] => []
  | CreateTask b e :: t' => (b, e) :: tasks_of t'
  | _ :: t' => tasks_of t'
  end.

Definition is_id (s : string) (bot : Bot) : bool := key_eqb (self_id bot) (JStr s).

(** The [Bot] instances constructed for identity [s]. *)
Definition created (s : string) (t : list effect) : list Bot :=
  filter (is_id s) (created_any t).

(** The [Bot] instances that were handed an event for identity [s]. *)
Definition dispatched (s : string) (t : list effect) : list Bot :=
  filter (is_id s) (map fst (tasks_of t)).

(** The instance [Bot(self, bot_id)] would be, and the adapter once it
    is connected. *)
Definition fresh_bot (self : Adapter) (bot_id : json) : Bot :=
  {| self_id := bot_id; oid := next_oid self |}.

Definition connected (self : Adapter) (bot_id : json) : Adapter :=
  {| adapter_config := adapter_config self; api_timeout := api_timeout self;
     bots := registry_set (bots self) bot_id (fresh_bot self bot_id);
     next_oid := S (next_oid self) |}.

(** The registry entries under key [k]. *)
Definition entries (k : json) (r : list (json * Bot)) : list (json * Bot) :=
  filter (fun p => key_eqb (fst p) k) r.

(** A registry whose keys are the ids of the bots stored under them,
    with at most one entry for identity [s]. *)
Definition registry_ok (s : string) (r : list (json * Bot)) : Prop :=
  (forall k b, In (k, b) r -> self_id b = k) /\
  (length (entries (JStr s) r) <= 1)%nat.

Section Observation.
Context `{Host}.

(** The [chatbotCorpId] an inbound request shows the adapter, when it
    is authenticated and its body decodes to an object that has one. *)
Definition observed_id (self : Adapter) (request : Request.t) : option json :=
  match outcome (_check_signature request self),
        if_truthy (Request.content request) with
  | Ok true, Some data =>
      match json_loads data with
      | Ok json_data =>
          match getitem json_data "chatbotCorpId" with
          | Ok bot_id => Some bot_id
          | Raise _ => None
          end
      | Raise _ => None
      end
  | _, _ => None
  end.

Definition shows (self : Adapter) (s : string) (request : Request.t) : bool :=
  match observed_id self request with
  | Some (JStr s') => String.eqb s' s
  | _ => false
  end.

(** The signature [_check_signature] expects of a request. *)
Definition expected_sign (self : Adapter) (request : Request.t) : string :=
  calc_hmac_base64 (str (headers_get (Request.headers request) "timestamp"))
                   (Config.secret (adapter_config self)).

(** Log lines and responses the methods produce. *)
Definition bad_signature_line : effect :=
  Log "WARNING" "Signature Header is invalid" None.

Definition calling_line (api : string) : effect :=
  Log "DEBUG" ("Calling API <y>" ++ api ++ "</y>") None.

Definition response (status : Z) (body : option string) : Response.t :=
  {| Response.status_code := status; Response.content := body |}.

End Observation.

(** ** A host to run the adapter on

    Stand-ins for the consumed interfaces, enough to evaluate the
    adapter on concrete requests: a keyed signature with base64
    punctuation in it, and a decoder that knows the documents below. *)

Module Sample.

Definition dq : string := String (ascii_of_nat 34) EmptyString.

(** ["k":"v"] *)
Definition member_str (k v : string) : string :=
  dq ++ k ++ dq ++ ":" ++ dq ++ v ++ dq.

(** ["k":n] *)
Definition member_int (k : string) (n : Z) : string :=
  dq ++ k ++ dq ++ ":" ++ str_of_int n.

(** An inbound payload of corporation [corp] with conversation type
    [ty], as text and as decoded. *)
Definition payload_text (corp ty : string) : string :=
  "{" ++ member_str "chatbotCorpId" corp ++ ","
      ++ member_str "conversationType" ty ++ ","
      ++ member_str "senderId" "u1" ++ ","
      ++ member_str "sessionWebhook" "https://oapi.example/session" ++ ","
      ++ member_int "sessionWebhookExpiredTime" 1700000000000 ++ "}".

Definition payload (corp ty : string) : json :=
  JDict [("chatbotCorpId", JStr corp); ("conversationType", JStr ty);
         ("senderId", JStr "u1");
         ("sessionWebhook", JStr "https://oapi.example/session");
         ("sessionWebhookExpiredTime", JInt 1700000000000)].

(** A vendor answer, as text and as decoded. *)
Definition answer_text (errcode : Z) (errmsg : string) : string :=
  "{" ++ member_int "errcode" errcode ++ "," ++ member_str "errmsg" errmsg ++ "}".

Definition answer (errcode : Z) (errmsg : string) : json :=
  JDict [("errcode", JInt errcode); ("errmsg", JStr errmsg)].

Definition documents : list (string * json) :=
  [(payload_text "B1" "1", payload "B1" "1");
   (payload_text "B1" "2", payload "B1" "2");
   (payload_text "B1" "3", payload "B1" "3");
   (payload_text "B2" "1", payload "B2" "1");
   (answer_text 0 "ok", answer 0 "ok");
   (answer_text 1 "bad", answer 1 "bad")].

Definition sample_loads (data : string) : res json :=
  match dict_get documents data with
  | Some j => Ok j
  | None => Raise JSONDecodeError
  end.

Definition sample_hmac (timestamp secret : string) : string :=
  "c2ln+" ++ secret ++ "/" ++ timestamp ++ "=".

Definition sample_value (k : ConversationType) : string :=
  match k with
  | private => "1"
  | group => "2"
  end.

Definition sample_parse (k : ConversationType) (obj : json) : res Event :=
  match obj with
  | JDict d =>
      match dict_get d "senderId", dict_get d "sessionWebhook",
            dict_get d "sessionWebhookExpiredTime" with
      | Some (JStr sender), Some (JStr hook), Some (JInt expiry) =>
          Ok {| conversationType := k; conversationId := "cid";
                senderId := sender; sessionWebhook := hook;
                sessionWebhookExpiredTime := expiry |}
      | _, _, _ => Raise ValidationError
      end
  | _ => Raise ValidationError
  end.

Definition sample_host : Host := {|
  calc_hmac_base64 := sample_hmac;
  json_loads := sample_loads;
  json_dumps := fun _ => "{" ++ member_str "msgtype" "text" ++ "}";
  repr := fun _ => "{...}";
  escape_tag := fun s => s;
  ConversationType_value := sample_value;
  parse_obj := sample_parse;
  produce := fun _ => JDict [("msgtype", JStr "text")];
  create_task := fun _ _ => Ok tt
|}.

Definition config : Config.t :=
  {| Config.ding_webhook_urlpath := None; Config.secret := "s3cret" |}.

(** The adapter after start-up: nothing registered yet. *)
Definition adapter : Adapter :=
  {| adapter_config := config; api_timeout := None; bots := []; next_oid := 0 |}.

(** An inbound POST with the given [sign] header and body. *)
Definition inbound (timestamp sign : string) (body : option string) : Request.t :=
  {| Request.method := "POST"; Request.url := "/ding";
     Request.headers := [("timestamp", timestamp); ("sign", sign)];
     Request.params := []; Request.timeout := None; Request.content := body |}.

Definition signed (body : option string) : Request.t :=
  inbound "1700000000000" (sample_hmac "1700000000000" "s3cret") body.

Definition the_event : Event :=
  {| conversationType := private; conversationId := "cid"; senderId := "u1";
     sessionWebhook := "https://oapi.example/session";
     sessionWebhookExpiredTime := 1700000000000 |}.

Definition the_message : Message :=
  [{| seg_type := "text"; seg_data := JStr "hello" |}].

Definition the_bot : Bot := {| self_id := JStr "B1"; oid := 0 |}.

(** A driver that answers every request with [status] and [body]. *)
Definition answering (status : Z) (body : string) : Request.t -> res Response.t :=
  fun _ => Ok {| Response.status_code := status; Response.content := Some body |}.

(** Clock readings around the expiry of [the_event], 1700000000000 ms:
    well before it, at it, 750 ms past it, a second past it, long
    after it; and the reading 1700000001.0005002. *)
Definition reading (t : float) (Hms : finite (t * 1000) = true)
    (Hs : finite t = true) : Clock :=
  {| time_time := t; now_timestamp := t; time_finite := Hms; now_finite := Hs |}.

Definition well_before : Clock := reading 1600000000 eq_refl eq_refl.
Definition at_expiry : Clock := reading 1700000000 eq_refl eq_refl.
Definition past_expiry : Clock := reading 1700000000.75 eq_refl eq_refl.
Definition after_expiry : Clock := reading 1700000001 eq_refl eq_refl.
Definition long_after : Clock := reading 1800000000 eq_refl eq_refl.
Definition odd_reading : Clock := reading 0x1.954fc40400832p+30 eq_refl eq_refl.

(** The world of one call: the clock and the driver's answer. *)
Definition world (c : Clock) (status : Z) (body : string) : Env :=
  {| clock := c; driver_request := answering status body |}.

(** Keyword arguments of a session reply, of a signed and of an
    unsigned direct send (the event present as well), and of a call
    with no address at all. *)
Definition session_reply : Data.t :=
  {| Data.webhook := None; Data.secret := None;
     Data.event := Some the_event; Data.message := Some the_message |}.

Definition direct_signed : Data.t :=
  {| Data.webhook := Some "https://oapi.example/robot/send"; Data.secret := Some "k3y";
     Data.event := Some the_event; Data.message := Some the_message |}.

Definition direct_unsigned : Data.t :=
  {| Data.webhook := Some "https://oapi.example/robot/send"; Data.secret := None;
     Data.event := Some the_event; Data.message := Some the_message |}.

Definition unaddressed : Data.t :=
  {| Data.webhook := None; Data.secret := None;
     Data.event := None; Data.message := Some the_message |}.

(** A run of inbound requests: two for [B1], one for [B2], one forged. *)
Definition deliveries : list Request.t :=
  [signed (Some (payload_text "B1" "1"));
   signed (Some (payload_text "B2" "1"));
   inbound "1700000000000" "forged" (Some (payload_text "B1" "1"));
   signed (Some (payload_text "B1" "2"))].

End Sample.

(** ** The bot's [send] *)

(** Modelled from the spec: what message.py offers [Bot.send]:
    [_construct], the segments a string is coerced into, and the
    mention segment [MessageSegment.atDingtalkIds]. *)
Class Messages : Type := {
  _construct : string -> Message;
  atDingtalkIds : string -> MessageSegment
}.

(** The [message] argument of [send]: [Union[str, Message, MessageSegment]]. *)
Inductive Sendable : Type :=
| OfStr (s : string)
| OfMessage (m : Message)
| OfSegment (seg : MessageSegment).

(** The [**kwargs] of [send] that [_call_api] reads.  [event] and
    [message] are parameters of [send], so no keyword can carry them. *)
Module Kwargs.
Record t : Type := {
  webhook : option string;
  secret : option string
}.
End Kwargs.

Definition is_private (k : ConversationType) : bool :=
  match k with
  | private => true
  | group => false
  end.

Section BotSend.
Context `{Host} `{Messages}.

(** [message if isinstance(message, Message) else Message(message)] *)
Definition as_message (message : Sendable) : Message :=
  match message with
  | OfMessage m => m
  | OfStr s => _construct s
  | OfSegment seg => [seg]
  end.

(** The message [send] puts into [data]: in a conversation that is
    not private, the text mention of the sender, the message, and the
    [at] segment. *)
Definition addressed (event : Event) (msg : Message) : Message :=
  if negb (is_private (conversationType event)) then
    (_construct ("@" ++ senderId event ++ " ") ++ msg
       ++ [atDingtalkIds (senderId event)])%list
  else msg.

(** [data] of [send]: the event, the keywords over it, the message. *)
Definition send_data (event : Event) (message : Sendable) (kwargs : Kwargs.t) : Data.t :=
  {| Data.webhook := Kwargs.webhook kwargs;
     Data.secret := Kwargs.secret kwargs;
     Data.event := Some event;
     Data.message := Some (addressed event (as_message message)) |}.

(** [Bot.send]; [self.send_message] with [data] as keywords is the
    adapter's [_call_api] for the API [send_message] (no API hooks
    registered). *)
Definition Bot_send (env : Env) (self_bot : Bot) (event : Event)
    (message : Sendable) (kwargs : Kwargs.t) : M json :=
  _call_api env self_bot "send_message" (send_data event message kwargs).

End BotSend.

(** ** More readings of a request and of a trace *)

Section Readings.
Context `{Host}.

(** The conversation kind a discriminator value selects, if any. *)
Definition recognised (ct : json) : option ConversationType :=
  if is_kind ct private then Some private
  else if is_kind ct group then Some group
  else None.

(** The [Bot] a request for identity [corp] is handled by: the
    registered one, or else the one that is constructed for it. *)
Definition bot_for (self : Adapter) (corp : string) : Bot :=
  match registry_get (bots self) (JStr corp) with
  | Some bot => bot
  | None => fresh_bot self (JStr corp)
  end.

(** The adapter once that bot is in the registry, and what getting it
    there leaves in the trace. *)
Definition admitted (self : Adapter) (corp : string) : Adapter :=
  match registry_get (bots self) (JStr corp) with
  | Some _ => self
  | None => connected self (JStr corp)
  end.

Definition connect_trace (self : Adapter) (corp : string) : list effect :=
  match registry_get (bots self) (JStr corp) with
  | Some _ => []
  | None =>
      [BotInit (fresh_bot self (JStr corp)); BotConnect (fresh_bot self (JStr corp));
       Log "INFO" ("<y>Bot " ++ escape_tag corp ++ "</y> connected") None]
  end.

Definition accepted : Response.t := response 204 None.

Definition failed_line (json_data : json) (e : exn) : effect :=
  Log "ERROR"
    ("<r><bg #f8bbd0>Failed to handle event. Raw: "
       ++ escape_tag (repr json_data) ++ "</bg #f8bbd0></r>")
    (Some e).

Definition parser_line (e : exn) : effect :=
  Log "ERROR" "Event Parser Error" (Some e).

Definition status_error (status : Z) : exn :=
  NetworkError ("HTTP request received unexpected status code: " ++ str_of_int status)
               None.

Definition request_failed (cause : exn) : exn :=
  NetworkError "HTTP request failed" (Some cause).

Definition is_2xx (status : Z) : bool := (200 <=? status) && (status <? 300).

(** The bodies [json.loads] was given, in order. *)
Fixpoint decoded_of (t : list effect) : list string :=
  match t with
  | [] => []
  | JsonLoads data :: t' => data :: decoded_of t'
  | _ :: t' => decoded_of t'
  end.

End Readings.

(** Stand-ins for message.py, to run [Bot.send] on. *)
Module SampleSend.

Definition sample_messages : Messages := {|
  _construct := fun s => [{| seg_type := "text"; seg_data := JStr s |}];
  atDingtalkIds := fun id => {| seg_type := "at"; seg_data := JStr id |}
|}.

Definition group_event : Event :=
  {| conversationType := group; conversationId := "cid"; senderId := "u1";
     sessionWebhook := "https://oapi.example/session";
     sessionWebhookExpiredTime := 1700000000000 |}.

Definition no_kwargs : Kwargs.t := {| Kwargs.webhook := None; Kwargs.secret := None |}.


(** A driver that raises. *)
Definition failing (e : exn) : Request.t -> res Response.t := fun _ => Raise e.

(** A driver that answers with a status and no body. *)
Definition bodiless (status : Z) : Request.t -> res Response.t :=
  fun _ => Ok {| Response.status_code := status; Response.content := None |}.

(** A host whose scheduler refuses every task. *)
Definition refusing_host : Host := {|
  calc_hmac_base64 := Sample.sample_hmac;
  json_loads := Sample.sample_loads;
  json_dumps := fun _ => "{}";
  repr := fun _ => "{...}";
  escape_tag := fun s => s;
  ConversationType_value := Sample.sample_value;
  parse_obj := Sample.sample_parse;
  produce := fun _ => JDict [];
  create_task := fun _ _ => Raise (RuntimeError "no running event loop")
|}.

(** A host whose decoder reads every body as [j]. *)
Definition decoding (j : json) : Host := {|
  calc_hmac_base64 := Sample.sample_hmac;
  json_loads := fun _ => Ok j;
  json_dumps := fun _ => "{}";
  repr := fun _ => "{...}";
  escape_tag := fun s => s;
  ConversationType_value := Sample.sample_value;
  parse_obj := Sample.sample_parse;
  produce := fun _ => JDict [];
  create_task := fun _ _ => Ok tt
|}.

Definition hello : MessageSegment := {| seg_type := "text"; seg_data := JStr "hello" |}.

(** A world well before the expiry of [Sample.the_event]. *)
Definition world_of (driver : Request.t -> res Response.t) : Env :=
  {| clock := Sample.well_before; driver_request := driver |}.

(** An event whose expiry is beyond the float range, and the reply to
    it. *)
Definition unbounded_event : Event :=
  {| conversationType := private; conversationId := "cid"; senderId := "u1";
     sessionWebhook := "https://oapi.example/session";
     sessionWebhookExpiredTime := 10 ^ 400 |}.

Definition unbounded_reply : Data.t :=
  {| Data.webhook := None; Data.secret := None;
     Data.event := Some unbounded_event; Data.message := Some Sample.the_message |}.

(** An adapter that starts with a bot for [B1] in its registry. *)
Definition seeded : Adapter :=
  {| adapter_config := Sample.config; api_timeout := None;
     bots := [(JStr "B1", {| self_id := JStr "B1"; oid := 41 |})]; next_oid := 42 |}.

(** A session reply well before the expiry, without a message. *)
Definition wordless : Data.t :=
  {| Data.webhook := None; Data.secret := None;
     Data.event := Some Sample.the_event; Data.message := None |}.

End SampleSend.

(** * Properties *)

(** ** Percent-coding round trips *)

Module UrllibFacts.
Import Urllib.

Lemma replace_app (a b : ascii) (x y : string) :
  replace a b (x ++ y) = replace a b x ++ replace a b y.
Proof.
  induction x as [|c x IH]; simpl; [reflexivity|].
  now rewrite IH.
Qed.

Ltac each_byte c :=
  destruct c as [[] [] [] [] [] [] [] []]; reflexivity.

Lemma unquote_quoter (c : ascii) (r : string) :
  unquote (quoter EmptyString c ++ r) = String c (unquote r).
Proof. each_byte c. Qed.

Lemma unquote_plus_quoter (c : ascii) (r : string) :
  unquote (replace "+" " " (quoter EmptyString c) ++ r) = String c (unquote r).
Proof. each_byte c. Qed.

Lemma unquote_plus_quoter_space (c : ascii) (r : string) :
  unquote (replace "+" " " (replace " " "+" (quoter " " c)) ++ r)
  = String c (unquote r).
Proof. each_byte c. Qed.

Lemma unquote_quote_from_bytes (bs : string) :
  unquote (quote_from_bytes bs EmptyString) = bs.
Proof.
  induction bs as [|c bs IH]; simpl; [reflexivity|].
  now rewrite unquote_quoter, IH.
Qed.

Lemma unquote_plus_quote_from_bytes (bs : string) :
  unquote_plus (quote_from_bytes bs EmptyString) = bs.
Proof.
  unfold unquote_plus.
  induction bs as [|c bs IH]; simpl; [reflexivity|].
  now rewrite replace_app, unquote_plus_quoter, IH.
Qed.

Lemma unquote_plus_quote_space (bs : string) :
  unquote_plus (replace " " "+" (quote_from_bytes bs " ")) = bs.
Proof.
  unfold unquote_plus.
  induction bs as [|c bs IH]; simpl; [reflexivity|].
  now rewrite !replace_app, unquote_plus_quoter_space, IH.
Qed.

(** [unquote_plus] undoes [quote_plus] on every byte string. *)
Lemma unquote_plus_quote_plus (bs : string) :
  unquote_plus (quote_plus bs) = bs.
Proof.
  unfold quote_plus.
  destruct (mem " " bs); simpl.
  - apply unquote_plus_quote_space.
  - apply unquote_plus_quote_from_bytes.
Qed.

(** Plain [unquote] undoes it when there is no space to turn into [+],
    as in base64 text. *)
Lemma unquote_quote_plus (bs : string) :
  mem " " bs = false -> unquote (quote_plus bs) = bs.
Proof.
  intros Hsp. unfold quote_plus. rewrite Hsp. simpl.
  apply unquote_quote_from_bytes.
Qed.

End UrllibFacts.

(** ** Float arithmetic *)

Section Floats.

Lemma round_div_nearest (a b : Z) :
  0 < b ->
  2 * Z.abs (round_div a b * b - a) <= b /\
  (2 * Z.abs (round_div a b * b - a) = b -> Z.even (round_div a b) = true).
Proof.
  intros Hb. unfold round_div.
  pose proof (Z.div_mod a b ltac:(lia)) as D.
  pose proof (Z.mod_pos_bound a b Hb) as B.
  destruct (2 * (a mod b) <? b) eqn:E1.
  { apply Z.ltb_lt in E1. split; nia. }
  apply Z.ltb_ge in E1.
  destruct (b <? 2 * (a mod b)) eqn:E2.
  { apply Z.ltb_lt in E2. split; nia. }
  apply Z.ltb_ge in E2.
  destruct (Z.even (a / b)) eqn:E3.
  - split; [nia|trivial].
  - split; [nia|]. intros _.
    replace (a / b + 1) with (Z.succ (a / b)) by lia.
    rewrite Z.even_succ, <- Z.negb_even, E3. reflexivity.
Qed.

Lemma quot_truncation (s : bool) (m : positive) (d : Z) :
  0 < d ->
  Z.abs (Z.quot (signed s m) d) * d <= Z.pos m
    < (Z.abs (Z.quot (signed s m) d) + 1) * d /\
  0 <= Z.quot (signed s m) d * signed s m.
Proof.
  intros Hd.
  assert (Q : Z.quot (signed s m) d
              = if s then - (Z.pos m / d) else Z.pos m / d).
  { destruct s; simpl signed.
    - change (Z.neg m) with (- Z.pos m). rewrite Z.quot_opp_l by lia.
      now rewrite Z.quot_div_nonneg by lia.
    - now rewrite Z.quot_div_nonneg by lia. }
  rewrite Q.
  pose proof (Z.div_mod (Z.pos m) d ltac:(lia)) as D.
  pose proof (Z.mod_pos_bound (Z.pos m) d Hd) as B.
  assert (P : 0 <= Z.pos m / d) by (apply Z.div_pos; lia).
  destruct s; simpl signed.
  - rewrite Z.abs_opp, Z.abs_eq by lia. split; [nia|].
    change (Z.neg m) with (- Z.pos m). nia.
  - rewrite Z.abs_eq by lia. split; nia.
Qed.

Lemma pow2_pos (e : Z) : 0 < 2 ^ e \/ e < 0.
Proof. destruct (Z.ltb_spec e 0); [now right|left; apply Z.pow_pos_nonneg; lia]. Qed.

Lemma sf_int_truncation (q : spec_float) (x : Z) :
  sf_int q = Ok x -> truncation q x.
Proof.
  destruct q as [sg|sg| |s m e]; simpl; try discriminate.
  - now intros [= <-].
  - intros [= <-]. destruct (0 <=? e) eqn:E; [reflexivity|].
    apply Z.leb_gt in E. apply quot_truncation.
    apply Z.pow_pos_nonneg; lia.
Qed.

Lemma truncation_unique (q : spec_float) (x y : Z) :
  truncation q x -> truncation q y -> x = y.
Proof.
  destruct q as [sg|sg| |s m e]; simpl; try tauto; try congruence.
  destruct (0 <=? e) eqn:E; [congruence|].
  apply Z.leb_gt in E.
  assert (Hd : 0 < 2 ^ (- e)) by (apply Z.pow_pos_nonneg; lia).
  intros [[Lx Ux] Sx] [[Ly Uy] Sy].
  assert (A : Z.abs x = Z.abs y) by nia.
  destruct s; simpl signed in *; nia.
Qed.

Lemma py_round_nearest (x : float) (z : Z) :
  py_round x = Ok z -> nearest_even (Prim2SF x) z.
Proof.
  unfold py_round. destruct (Prim2SF x) as [sg|sg| |s m e]; simpl; try discriminate.
  - now intros [= <-].
  - intros [= <-]. destruct (0 <=? e) eqn:E; [reflexivity|].
    apply Z.leb_gt in E. apply round_div_nearest.
    apply Z.pow_pos_nonneg; lia.
Qed.

Lemma py_round_millis (c : Clock) :
  py_round (time_time c * 1000) = Ok (millis c).
Proof.
  pose proof (time_finite c) as F. unfold millis, py_round, finite in *.
  destruct (Prim2SF (time_time c * 1000)); try discriminate; reflexivity.
Qed.

Lemma py_int_seconds (c : Clock) :
  py_int (now_timestamp c) = Ok (seconds c).
Proof.
  pose proof (now_finite c) as F. unfold seconds, py_int, sf_int, finite in *.
  destruct (Prim2SF (now_timestamp c)); try discriminate; reflexivity.
Qed.

Lemma millis_nearest (c : Clock) :
  nearest_even (Prim2SF (time_time c * 1000)) (millis c).
Proof. apply py_round_nearest, py_round_millis. Qed.

Lemma seconds_truncation (c : Clock) :
  truncation (Prim2SF (now_timestamp c)) (seconds c).
Proof. apply sf_int_truncation, py_int_seconds. Qed.

(** Rounding a mantissa that is not negative never yields a NaN. *)
Lemma shr_1_nonneg (mrs : shr_record) :
  0 <= shr_m mrs -> 0 <= shr_m (shr_1 mrs).
Proof.
  destruct mrs as [m r s]. destruct m as [|[p|p|]|p]; simpl; lia.
Qed.

Lemma iter_shr_1_nonneg (p : positive) :
  forall mrs, 0 <= shr_m mrs -> 0 <= shr_m (iter_pos shr_1 p mrs).
Proof.
  induction p as [p IH|p IH|]; intros mrs Hm; simpl.
  - apply IH, IH, shr_1_nonneg, Hm.
  - apply IH, IH, Hm.
  - apply shr_1_nonneg, Hm.
Qed.

Lemma shr_fexp_nonneg (m e : Z) (l : location) :
  0 <= m -> 0 <= shr_m (fst (shr_fexp prec emax m e l)).
Proof.
  intros Hm. unfold shr_fexp, shr.
  assert (R : 0 <= shr_m (shr_record_of_loc m l)).
  { unfold shr_record_of_loc. destruct l as [|[]]; simpl; exact Hm. }
  destruct (fexp prec emax (Zdigits2 m + e) - e); simpl; try exact R.
  now apply iter_shr_1_nonneg.
Qed.

Lemma binary_round_aux_not_nan (sx : bool) (mx ex : Z) (lx : location) :
  0 <= mx -> binary_round_aux prec emax sx mx ex lx <> S754_nan.
Proof.
  intros Hm. unfold binary_round_aux.
  pose proof (shr_fexp_nonneg mx ex lx Hm) as N1.
  destruct (shr_fexp prec emax mx ex lx) as [mrs' e']. simpl in N1.
  assert (N2 : 0 <= round_nearest_even (shr_m mrs') (loc_of_shr_record mrs')).
  { unfold round_nearest_even.
    destruct (loc_of_shr_record mrs') as [|[]]; try lia.
    destruct (Z.even (shr_m mrs')); lia. }
  pose proof (shr_fexp_nonneg _ e' loc_Exact N2) as N3.
  destruct (shr_fexp prec emax _ e' loc_Exact) as [mrs'' e'']. simpl in N3.
  destruct (shr_m mrs'') as [|m|m]; try discriminate; [|lia].
  destruct (e'' <=? emax - prec); discriminate.
Qed.

Lemma SFdiv_integers_not_nan (sx sy : bool) (mx my : positive) :
  SFdiv prec emax (S754_finite sx mx 0) (S754_finite sy my 0) <> S754_nan.
Proof.
  unfold SFdiv, SFdiv_core_binary. cbv zeta.
  match goal with |- context [Z.div_eucl ?m _] => set (m' := m) end.
  assert (Hm : 0 <= m').
  { unfold m'. destruct (0 - 0 - _); try lia. apply Z.shiftl_nonneg. lia. }
  assert (Hq : fst (Z.div_eucl m' (Z.pos my)) = m' / Z.pos my) by reflexivity.
  destruct (Z.div_eucl m' (Z.pos my)) as [q r]. simpl in Hq. subst q.
  apply binary_round_aux_not_nan. apply Z.div_pos; lia.
Qed.

(** [int(expiry / 1000)]: [OverflowError] when the quotient rounds
    out of range, and the truncated quotient otherwise. *)
Lemma expiry_seconds_cases (event : Event) :
  match SFdiv prec emax (Z2SF (sessionWebhookExpiredTime event)) (Z2SF 1000) with
  | S754_infinity _ =>
      expiry_seconds event
      = Raise (OverflowError "integer division result too large for a float")
  | quotient =>
      exists x, expiry_seconds event = Ok x /\ truncation quotient x
  end.
Proof.
  unfold expiry_seconds, int_true_div.
  assert (N : SFdiv prec emax (Z2SF (sessionWebhookExpiredTime event)) (Z2SF 1000)
              <> S754_nan).
  { destruct (sessionWebhookExpiredTime event); simpl Z2SF; try discriminate;
      apply SFdiv_integers_not_nan. }
  destruct (SFdiv prec emax _ _) as [sg|sg| |s m e] eqn:E; try reflexivity.
  - exists 0. split; reflexivity.
  - now destruct N.
  - eexists. split; [reflexivity|]. now apply sf_int_truncation.
Qed.

End Floats.

(** ** Running the adapter's methods *)

Section Runs.
Context `{Host}.

Lemma opt_str_eqb_eq (a : option string) (b : string) :
  opt_str_eqb a b = true <-> a = Some b.
Proof.
  destruct a as [s|]; simpl.
  - rewrite String.eqb_eq. split; congruence.
  - split; discriminate.
Qed.

Lemma check_signature_run (request : Request.t) (self : Adapter) :
  _check_signature request self =
  if opt_str_eqb (headers_get (Request.headers request) "sign")
                 (expected_sign self request)
  then (Ok true, self, [])
  else (Ok false, self, [bad_signature_line]).
Proof.
  unfold _check_signature, expected_sign, bind, gets, log, tell, ret. simpl.
  destruct (opt_str_eqb _ _); reflexivity.
Qed.

Lemma exchange_state (env : Env) (request : Request.t) (self : Adapter) :
  state_of (exchange env request self) = self.
Proof.
  unfold exchange, send, loads, bind, tell, lift, ret, raise, state_of. simpl.
  destruct (driver_request env request) as [resp|e]; simpl; [|reflexivity].
  destruct ((200 <=? _) && (_ <? 300)); simpl; [|reflexivity].
  destruct (if_truthy _) as [body|]; simpl; [|reflexivity].
  destruct (json_loads body) as [[| | | | | |d]|e]; simpl; try reflexivity.
  destruct (eqb_int _ 0); reflexivity.
Qed.

Lemma exchange_requests (env : Env) (request : Request.t) (self : Adapter) :
  requests_of (trace (exchange env request self)) = [request].
Proof.
  unfold exchange, send, loads, bind, tell, lift, ret, raise, trace. simpl.
  destruct (driver_request env request) as [resp|e]; simpl; [|reflexivity].
  destruct ((200 <=? _) && (_ <? 300)); simpl; [|reflexivity].
  destruct (if_truthy _) as [body|]; simpl; [|reflexivity].
  destruct (json_loads body) as [[| | | | | |d]|e]; simpl; try reflexivity.
  destruct (eqb_int _ 0); reflexivity.
Qed.

(** The addressing, case by case. *)
Lemma resolve_cases (env : Env) (data : Data.t) (self : Adapter) :
  resolve env data self =
  (match if_truthy (Data.webhook data) with
   | Some webhook =>
       Ok (webhook,
           match if_truthy (Data.secret data) with
           | Some secret =>
               let timestamp := str_of_int (millis (clock env)) in
               [("timestamp", timestamp);
                ("sign", Urllib.quote_plus (calc_hmac_base64 timestamp secret))]
           | None => []
           end)
   | None =>
       match Data.event data with
       | Some event =>
           match expiry_seconds event with
           | Raise e => Raise e
           | Ok expiry_s =>
               if seconds (clock env) >? expiry_s then Raise SessionExpired
               else Ok (sessionWebhook event, [])
           end
       | None => Raise ApiNotAvailable
       end
   end, self, []).
Proof.
  unfold resolve, bind, lift, ret, raise.
  destruct (if_truthy (Data.webhook data)).
  - destruct (if_truthy (Data.secret data)); [|reflexivity].
    now rewrite py_round_millis.
  - destruct (Data.event data) as [event|]; [|reflexivity].
    rewrite py_int_seconds. unfold expiry_seconds. simpl.
    destruct (int_true_div _ 1000) as [quotient|e]; simpl; [|reflexivity].
    destruct (sf_int quotient) as [expiry_s|e]; simpl; [|reflexivity].
    destruct (_ >? _); reflexivity.
Qed.

Lemma resolve_run (env : Env) (data : Data.t) (self : Adapter) :
  resolve env data self = (outcome (resolve env data self), self, []).
Proof. now rewrite resolve_cases. Qed.

(** [_call_api], step by step: the debug line, the addressing, the
    message check, and the exchange with every exception wrapped. *)
Lemma call_api_run (env : Env) (bot : Bot) (api : string) (data : Data.t)
    (self : Adapter) :
  _call_api env bot api data self =
  match outcome (resolve env data self) with
  | Raise e => (Raise e, self, [calling_line api])
  | Ok (webhook, params) =>
      match Data.message data with
      | Some (seg :: m) =>
          let x := exchange env
                     (outbound webhook params (api_timeout self) (seg :: m)) self in
          (match outcome x with
           | Ok result => Ok result
           | Raise e => Raise (NetworkError "HTTP request failed" (Some e))
           end, self, calling_line api :: trace x)
      | _ => (Raise (ValueError "Message not found"), self, [calling_line api])
      end
  end.
Proof.
  unfold _call_api, bind, log, tell, calling_line. simpl.
  rewrite resolve_run.
  destruct (outcome (resolve env data self)) as [[webhook params]|e]; [|reflexivity].
  destruct (Data.message data) as [[|seg m]|]; try reflexivity.
  unfold gets, try, raise, ret. simpl.
  pose proof (exchange_state env (outbound webhook params (api_timeout self) (seg :: m)) self) as Hst.
  unfold state_of, outcome, trace in *.
  destruct (exchange env _ self) as [[r s'] t]. simpl in *. subst s'.
  destruct r; simpl; rewrite ?app_nil_r; reflexivity.
Qed.

End Runs.

(** ** Signature verification and the negative responses *)

Section Inbound.
Context `{Host}.

(** C4.  Verification succeeds exactly when the [sign] header is
    present and equal, as a string, to the base64 HMAC of the
    [timestamp] header under the configured secret (the header read
    through [str], so an absent one signs as ["None"]); otherwise it
    returns [False]. It never raises. *)
Theorem check_signature_iff (request : Request.t) (self : Adapter) :
  let sign := headers_get (Request.headers request) "sign" in
  let timestamp := headers_get (Request.headers request) "timestamp" in
  let sign' := calc_hmac_base64 (str timestamp) (Config.secret (adapter_config self)) in
  (outcome (_check_signature request self) = Ok true <-> sign = Some sign') /\
  (outcome (_check_signature request self) = Ok false <-> sign <> Some sign').
Proof.
  cbv zeta. rewrite check_signature_run. unfold expected_sign, outcome.
  destruct (opt_str_eqb _ _) eqn:E; simpl.
  - apply opt_str_eqb_eq in E. split; split; intros; congruence.
  - assert (N : headers_get (Request.headers request) "sign" <>
                Some (calc_hmac_base64 (str (headers_get (Request.headers request) "timestamp"))
                        (Config.secret (adapter_config self)))).
    { intros C. apply opt_str_eqb_eq in C. congruence. }
    split; split; intros; try congruence; try reflexivity.
Qed.

(** C5.  A request that fails verification is answered 401 at once:
    the adapter is left as it was, the only effect is the warning
    line, and the answer does not depend on anything but the headers,
    so the body is never read. *)
Theorem handle_http_bad_signature (request : Request.t) (self : Adapter) :
  outcome (_check_signature request self) = Ok false ->
  _handle_http request self = (Ok (Some (response 401 None)), self, [bad_signature_line]) /\
  bots (state_of (_handle_http request self)) = bots self /\
  created_any (trace (_handle_http request self)) = [] /\
  tasks_of (trace (_handle_http request self)) = [] /\
  forall request',
    Request.headers request' = Request.headers request ->
    _handle_http request' self = _handle_http request self.
Proof.
  intros Hbad.
  assert (Run : forall rq, Request.headers rq = Request.headers request ->
            _handle_http rq self = (Ok (Some (response 401 None)), self, [bad_signature_line])).
  { intros rq Hh. unfold _handle_http, bind.
    rewrite check_signature_run in *. unfold expected_sign in *. rewrite Hh.
    destruct (opt_str_eqb _ _); [discriminate|reflexivity]. }
  rewrite (Run request eq_refl). repeat split.
  intros rq Hh. now apply Run.
Qed.

(** C9.  An authenticated request without a body, or with an empty
    one, is answered 400 with an explanatory body and nothing else
    happens; and whenever the handler produces a response, it is 204,
    that 400, or the 401 of a failed verification. *)
Theorem handle_http_negative_responses (request : Request.t) (self : Adapter) :
  (outcome (_check_signature request self) = Ok true ->
   truthy (Request.content request) = false ->
   _handle_http request self
   = (Ok (Some (response 400 (Some "Invalid request body"))), self, [])) /\
  (forall r,
     outcome (_handle_http request self) = Ok (Some r) ->
     r = response 204 None \/
     (r = response 400 (Some "Invalid request body") /\
      outcome (_check_signature request self) = Ok true /\
      truthy (Request.content request) = false) \/
     (r = response 401 None /\
      outcome (_check_signature request self) = Ok false)).
Proof.
  split.
  - intros Hok Hempty. unfold _handle_http, bind, if_truthy.
    rewrite check_signature_run in *.
    destruct (opt_str_eqb _ _); [|discriminate]. simpl.
    now rewrite Hempty.
  - intros r. unfold _handle_http, bind, if_truthy.
    rewrite check_signature_run.
    destruct (opt_str_eqb _ _); simpl.
    2:{ intros E; injection E as <-. right; right. now split. }
    destruct (truthy (Request.content request)) eqn:Ht.
    2:{ simpl. intros E; injection E as <-. right; left. now repeat split. }
    destruct (Request.content request) as [data|]; [|discriminate].
    unfold loads, bind, tell, lift. simpl.
    destruct (json_loads data) as [json_data|e]; simpl; [|discriminate].
    destruct (getitem json_data "chatbotCorpId") as [bot_id|e]; simpl; [|discriminate].
    destruct (get_or_connect bot_id self) as [[[bot|e] self1] t1]; simpl; [|discriminate].
    unfold dispatch, bind, try.
    destruct (classify json_data self1) as [[[event|e] self2] t2]; simpl.
    + destruct (create_task bot event); unfold tell, log, ret; simpl;
        intros E; injection E as <-; now left.
    + unfold log, tell, ret; simpl. discriminate.
Qed.

End Inbound.

(** ** The outbound call *)

Section Outbound.
Context `{Host}.

Lemma resolve_webhook (env : Env) (data : Data.t) (self : Adapter) (w : string) :
  if_truthy (Data.webhook data) = Some w ->
  outcome (resolve env data self) =
  Ok (w, match if_truthy (Data.secret data) with
         | Some secret =>
             let timestamp := str_of_int (millis (clock env)) in
             [("timestamp", timestamp);
              ("sign", Urllib.quote_plus (calc_hmac_base64 timestamp secret))]
         | None => []
         end).
Proof.
  intros Hw. now rewrite resolve_cases, Hw.
Qed.

Lemma resolve_session (env : Env) (data : Data.t) (self : Adapter) (e : Event) :
  if_truthy (Data.webhook data) = None ->
  Data.event data = Some e ->
  outcome (resolve env data self) =
  match expiry_seconds e with
  | Raise err => Raise err
  | Ok expiry_s =>
      if seconds (clock env) >? expiry_s then Raise SessionExpired
      else Ok (sessionWebhook e, [])
  end.
Proof.
  intros Hw He. now rewrite resolve_cases, Hw, He.
Qed.

Lemma expiry_seconds_raises (event : Event) (e : exn) :
  expiry_seconds event = Raise e -> e = too_large.
Proof.
  intros E. pose proof (expiry_seconds_cases event) as X.
  destruct (SFdiv prec emax _ _);
    try (destruct X as (x & Hx & _); congruence).
  rewrite X in E. now injection E as <-.
Qed.

(** The addressing raises [SessionExpired], [ApiNotAvailable] or the
    [OverflowError] of the expiry division, and nothing else. *)
Lemma resolve_raises (env : Env) (data : Data.t) (self : Adapter) (e : exn) :
  outcome (resolve env data self) = Raise e ->
  e = SessionExpired \/ e = ApiNotAvailable \/ e = too_large.
Proof.
  rewrite resolve_cases. unfold outcome. simpl.
  destruct (if_truthy (Data.webhook data)); [discriminate|].
  destruct (Data.event data) as [event|].
  - destruct (expiry_seconds event) as [x|err] eqn:E.
    + destruct (_ >? _); [|discriminate]. intros [= <-]. now left.
    + intros [= <-]. right; right. now apply expiry_seconds_raises with event.
  - intros [= <-]. now right; left.
Qed.

Lemma call_api_requests (env : Env) (bot : Bot) (api : string) (data : Data.t)
    (self : Adapter) :
  requests_of (trace (_call_api env bot api data self)) =
  match outcome (resolve env data self), Data.message data with
  | Ok (webhook, params), Some (seg :: m) =>
      [outbound webhook params (api_timeout self) (seg :: m)]
  | _, _ => []
  end.
Proof.
  rewrite call_api_run.
  destruct (outcome (resolve env data self)) as [[webhook params]|e]; [|reflexivity].
  destruct (Data.message data) as [[|seg m]|]; try reflexivity.
  cbv zeta. unfold trace at 1. simpl. apply exchange_requests.
Qed.

(** Whatever goes wrong after the addressing reaches the caller as a
    [ValueError] (no message) or as a [NetworkError]. *)
Lemma call_api_raises (env : Env) (bot : Bot) (api : string) (data : Data.t)
    (self : Adapter) (e : exn) :
  outcome (_call_api env bot api data self) = Raise e ->
  outcome (resolve env data self) = Raise e \/
  e = ValueError "Message not found" \/
  exists cause, e = NetworkError "HTTP request failed" (Some cause).
Proof.
  rewrite call_api_run.
  destruct (outcome (resolve env data self)) as [[webhook params]|e0].
  - destruct (Data.message data) as [[|seg m]|]; cbv zeta; unfold outcome at 1; simpl.
    + intros E; injection E as <-. now right; left.
    + destruct (outcome (exchange env _ self)) as [result|cause]; [discriminate|].
      intros E; injection E as <-. right; right. now exists cause.
    + intros E; injection E as <-. now right; left.
  - unfold outcome at 1; simpl. intros E; injection E as <-. now left.
Qed.

(** C1, as the code has it.  In session-reply mode the call compares
    [int(now)] with [int(expiry / 1000)], the clock and the float
    quotient each truncated to whole seconds.  When the quotient is
    out of the float range the call raises [OverflowError] and issues
    no request.  Otherwise, when the current second is later than the
    expiry's second the call raises [SessionExpired] and issues no
    request; and when it is not, the call cannot raise
    [SessionExpired], and the request it issues goes to the event's
    [sessionWebhook], unsigned. *)
Theorem call_api_session_reply (env : Env) (bot : Bot) (api : string)
    (data : Data.t) (self : Adapter) (e : Event) :
  if_truthy (Data.webhook data) = None ->
  Data.event data = Some e ->
  let run := _call_api env bot api data self in
  exists now_s,
    truncation (Prim2SF (now_timestamp (clock env))) now_s /\
    match SFdiv prec emax (Z2SF (sessionWebhookExpiredTime e)) (Z2SF 1000) with
    | S754_infinity _ =>
        run = (Raise (OverflowError "integer division result too large for a float"),
               self, [calling_line api]) /\
        requests_of (trace run) = []
    | quotient =>
        exists expiry_s,
          truncation quotient expiry_s /\
          (now_s > expiry_s ->
             run = (Raise SessionExpired, self, [calling_line api]) /\
             requests_of (trace run) = []) /\
          (now_s <= expiry_s ->
             outcome run <> Raise SessionExpired /\
             (forall r, In r (requests_of (trace run)) ->
                Request.url r = sessionWebhook e /\ Request.params r = []) /\
             (forall seg m, Data.message data = Some (seg :: m) ->
                requests_of (trace run)
                = [outbound (sessionWebhook e) [] (api_timeout self) (seg :: m)]))
    end.
Proof.
  intros Hw He. cbv zeta.
  exists (seconds (clock env)). split; [apply seconds_truncation|].
  pose proof (resolve_session env data self e Hw He) as R.
  pose proof (expiry_seconds_cases e) as X.
  assert (Fin : forall expiry_s,
            expiry_seconds e = Ok expiry_s ->
            (seconds (clock env) > expiry_s ->
               _call_api env bot api data self
               = (Raise SessionExpired, self, [calling_line api]) /\
               requests_of (trace (_call_api env bot api data self)) = []) /\
            (seconds (clock env) <= expiry_s ->
               outcome (_call_api env bot api data self) <> Raise SessionExpired /\
               (forall r, In r (requests_of (trace (_call_api env bot api data self))) ->
                  Request.url r = sessionWebhook e /\ Request.params r = []) /\
               (forall seg m, Data.message data = Some (seg :: m) ->
                  requests_of (trace (_call_api env bot api data self))
                  = [outbound (sessionWebhook e) [] (api_timeout self) (seg :: m)]))).
  { intros expiry_s Hx. rewrite Hx in R. split.
    - intros Hlate. apply Z.gtb_gt in Hlate. rewrite Hlate in R.
      rewrite call_api_run, R. split; reflexivity.
    - intros Hin.
      assert (G : (seconds (clock env) >? expiry_s) = false).
      { rewrite Z.gtb_ltb. apply Z.ltb_ge. exact Hin. }
      rewrite G in R. split; [|split].
      + intros C. apply call_api_raises in C. rewrite R in C.
        destruct C as [C|[C|[c C]]]; discriminate.
      + intros r Hr. rewrite call_api_requests, R in Hr.
        destruct (Data.message data) as [[|seg m]|]; simpl in Hr; try tauto.
        destruct Hr as [<-|[]]. split; reflexivity.
      + intros seg m Hm. now rewrite call_api_requests, R, Hm. }
  destruct (SFdiv prec emax _ _) as [sg|sg| |s m ex].
  - destruct X as (x & Hx & Tx). exists x. split; [exact Tx|]. now apply Fin.
  - rewrite X in R. rewrite call_api_run, R. split; reflexivity.
  - destruct X as (x & Hx & Tx). exists x. split; [exact Tx|]. now apply Fin.
  - destruct X as (x & Hx & Tx). exists x. split; [exact Tx|]. now apply Fin.
Qed.

(** C7.  With neither a webhook nor an event the call raises
    [ApiNotAvailable] right after its debug line; no request is
    issued and the adapter is untouched. *)
Theorem call_api_not_available (env : Env) (bot : Bot) (api : string)
    (data : Data.t) (self : Adapter) :
  if_truthy (Data.webhook data) = None ->
  Data.event data = None ->
  _call_api env bot api data self = (Raise ApiNotAvailable, self, [calling_line api]) /\
  requests_of (trace (_call_api env bot api data self)) = [].
Proof.
  intros Hw He.
  assert (R : outcome (resolve env data self) = Raise ApiNotAvailable).
  { unfold resolve. now rewrite Hw, He. }
  rewrite call_api_run, R. split; reflexivity.
Qed.

(** C10.  With an explicit webhook the event plays no part: the call
    runs exactly as it does without the event, it cannot raise
    [SessionExpired], and whatever it sends goes to the webhook. *)
Theorem call_api_webhook_over_event (env : Env) (bot : Bot) (api : string)
    (data : Data.t) (self : Adapter) (w : string) (e : Event) :
  if_truthy (Data.webhook data) = Some w ->
  Data.event data = Some e ->
  let run := _call_api env bot api data self in
  outcome run <> Raise SessionExpired /\
  (forall r, In r (requests_of (trace run)) -> Request.url r = w) /\
  (forall seg m, Data.message data = Some (seg :: m) ->
     exists r, requests_of (trace run) = [r] /\ Request.url r = w) /\
  run = _call_api env bot api
          {| Data.webhook := Data.webhook data; Data.secret := Data.secret data;
             Data.event := None; Data.message := Data.message data |} self.
Proof.
  intros Hw He. cbv zeta.
  pose proof (resolve_webhook env data self w Hw) as R.
  repeat split.
  - intros C. apply call_api_raises in C. rewrite R in C.
    destruct C as [C|[C|[c C]]]; discriminate.
  - intros r Hr. rewrite call_api_requests, R in Hr.
    destruct (Data.message data) as [[|seg m]|]; simpl in Hr; try tauto.
    destruct Hr as [<-|[]]. reflexivity.
  - intros seg m Hm. rewrite call_api_requests, R, Hm.
    eexists. split; reflexivity.
  - rewrite !call_api_run.
    assert (R' : forall d', Data.webhook d' = Data.webhook data ->
                   Data.secret d' = Data.secret data ->
                   outcome (resolve env d' self) = outcome (resolve env data self)).
    { intros d' E1 E2. rewrite R. rewrite (resolve_webhook env d' self w).
      - now rewrite E2.
      - now rewrite E1. }
    rewrite (R' {| Data.webhook := Data.webhook data; Data.secret := Data.secret data;
                   Data.event := None; Data.message := Data.message data |}
               eq_refl eq_refl).
    reflexivity.
Qed.

(** C6.  In direct-webhook mode every request the call issues goes to
    the webhook.  With a secret it carries exactly the parameters
    [timestamp], the decimal string of the integer nearest to
    [time.time() * 1000] (the float product, ties to even), and
    [sign], which percent-decodes to the base64 HMAC of that
    timestamp under that secret, so that a request presenting the
    pair passes [_check_signature] under the same secret; without a
    secret it carries no parameters.  With a message supplied, one
    request is issued. *)
Theorem call_api_direct_webhook_signing (env : Env) (bot : Bot) (api : string)
    (data : Data.t) (self : Adapter) (w : string) :
  if_truthy (Data.webhook data) = Some w ->
  let run := _call_api env bot api data self in
  (forall seg m, Data.message data = Some (seg :: m) ->
     exists r, requests_of (trace run) = [r]) /\
  (forall r, In r (requests_of (trace run)) ->
     Request.url r = w /\
     match if_truthy (Data.secret data) with
     | Some secret =>
         exists ms sign,
           let timestamp := NilZero.string_of_int (Z.to_int ms) in
           nearest_even (Prim2SF (time_time (clock env) * 1000)) ms /\
           Request.params r = [("timestamp", timestamp); ("sign", sign)] /\
           Urllib.unquote_plus sign = calc_hmac_base64 timestamp secret /\
           (Urllib.mem " " (calc_hmac_base64 timestamp secret) = false ->
            Urllib.unquote sign = calc_hmac_base64 timestamp secret) /\
           (forall (verifier : Adapter) (inbound : Request.t),
              Config.secret (adapter_config verifier) = secret ->
              headers_get (Request.headers inbound) "timestamp" = Some timestamp ->
              headers_get (Request.headers inbound) "sign"
              = Some (Urllib.unquote_plus sign) ->
              outcome (_check_signature inbound verifier) = Ok true)
     | None => Request.params r = []
     end).
Proof.
  intros Hw. cbv zeta.
  pose proof (resolve_webhook env data self w Hw) as R.
  split.
  - intros seg m Hm. rewrite call_api_requests, R, Hm. eexists; reflexivity.
  - intros r Hr. rewrite call_api_requests, R in Hr.
    destruct (Data.message data) as [[|seg m]|]; simpl in Hr; try tauto.
    destruct Hr as [<-|[]]. split; [reflexivity|].
    destruct (if_truthy (Data.secret data)) as [secret|]; [|reflexivity].
    exists (millis (clock env)). eexists.
    split; [apply millis_nearest|].
    split; [reflexivity|].
    rewrite UrllibFacts.unquote_plus_quote_plus.
    split; [reflexivity|]. split.
    + apply UrllibFacts.unquote_quote_plus.
    + intros verifier inbound Hs Ht Hg.
      rewrite check_signature_run. unfold expected_sign.
      rewrite Ht, Hg, Hs. simpl. now rewrite String.eqb_refl.
Qed.

(** C2, as the code has it.  A 2xx answer whose body decodes to an
    object with a nonzero [errcode] makes the call raise
    [NetworkError], the [ActionFailed] with the vendor's code and
    message being its cause: the [raise] sits inside the [try] whose
    handler wraps every exception. *)
Theorem call_api_vendor_error_wrapped (env : Env) (bot : Bot) (api : string)
    (data : Data.t) (self : Adapter) (webhook : string)
    (params : list (string * string)) (seg : MessageSegment) (m : Message)
    (resp : Response.t) (body : string) (d : list (string * json)) :
  outcome (resolve env data self) = Ok (webhook, params) ->
  Data.message data = Some (seg :: m) ->
  driver_request env (outbound webhook params (api_timeout self) (seg :: m)) = Ok resp ->
  200 <= Response.status_code resp < 300 ->
  if_truthy (Response.content resp) = Some body ->
  json_loads body = Ok (JDict d) ->
  eqb_int (dict_get_none d "errcode") 0 = false ->
  outcome (_call_api env bot api data self)
  = Raise (NetworkError "HTTP request failed"
             (Some (ActionFailed (dict_get_none d "errcode")
                                 (dict_get_none d "errmsg")))).
Proof.
  intros R Hm Hd Hs Hb Hj He.
  rewrite call_api_run, R, Hm. cbv zeta. unfold outcome at 1. simpl.
  unfold exchange, send, loads, bind, tell, lift, outcome. simpl.
  rewrite Hd. simpl.
  replace ((200 <=? Response.status_code resp) && (Response.status_code resp <? 300))
    with true by (symmetry; apply andb_true_iff; split;
                  [apply Z.leb_le|apply Z.ltb_lt]; lia).
  rewrite Hb. simpl. rewrite Hj. simpl. rewrite He. reflexivity.
Qed.

(** No call ever raises [ActionFailed] to its caller. *)
Lemma call_api_never_action_failed (env : Env) (bot : Bot) (api : string)
    (data : Data.t) (self : Adapter) (code msg : json) :
  outcome (_call_api env bot api data self) <> Raise (ActionFailed code msg).
Proof.
  intros C. apply call_api_raises in C. destruct C as [C|[C|[c C]]]; try discriminate.
  apply resolve_raises in C. destruct C as [C|[C|C]]; discriminate.
Qed.

End Outbound.

(** ** The inbound handler, step by step *)

Section Handler.
Context `{Host}.

Lemma created_any_app (t1 t2 : list effect) :
  created_any (t1 ++ t2) = (created_any t1 ++ created_any t2)%list.
Proof.
  induction t1 as [|[] t1 IH]; simpl; try assumption; [reflexivity|].
  now rewrite IH.
Qed.

Lemma tasks_of_app (t1 t2 : list effect) :
  tasks_of (t1 ++ t2) = (tasks_of t1 ++ tasks_of t2)%list.
Proof.
  induction t1 as [|[] t1 IH]; simpl; try assumption; [reflexivity|].
  now rewrite IH.
Qed.

Lemma get_or_connect_run (bot_id : json) (self : Adapter) :
  get_or_connect bot_id self =
  if hashable bot_id then
    match registry_get (bots self) bot_id with
    | Some bot => (Ok bot, self, [])
    | None =>
        let bot := fresh_bot self bot_id in
        match bot_id with
        | JStr s =>
            (Ok bot, connected self bot_id,
             [BotInit bot; BotConnect bot;
              Log "INFO" ("<y>Bot " ++ escape_tag s ++ "</y> connected") None])
        | _ => (Raise TypeError, connected self bot_id, [BotInit bot; BotConnect bot])
        end
    end
  else (Raise TypeError, self, []).
Proof.
  unfold get_or_connect, bots_get, bind.
  destruct (hashable bot_id) eqn:Hh; [|reflexivity].
  unfold gets. simpl.
  destruct (registry_get (bots self) bot_id) as [bot|]; [reflexivity|].
  destruct bot_id; try discriminate; reflexivity.
Qed.

(** Classification leaves the adapter alone; it constructs no [Bot]
    and hands over no event. *)
Lemma classify_run (json_data : json) (self : Adapter) :
  exists r t,
    classify json_data self = (r, self, t) /\
    created_any t = [] /\ tasks_of t = [] /\
    (forall ct, getitem json_data "conversationType" = Ok ct ->
       is_kind ct private = false -> is_kind ct group = false ->
       r = Raise (ValueError "Unsupported conversation type") /\ t = []).
Proof.
  unfold classify, parse, bind, lift, tell, raise. simpl.
  destruct (getitem json_data "conversationType") as [ct|e]; simpl.
  2:{ do 2 eexists. do 3 (split; [reflexivity|]). discriminate. }
  destruct (is_kind ct private) eqn:E1; simpl.
  { destruct (parse_obj private json_data); do 2 eexists;
      do 3 (split; [reflexivity|]); intros ct' [= <-]; congruence. }
  destruct (is_kind ct group) eqn:E2; simpl.
  { destruct (parse_obj group json_data); do 2 eexists;
      do 3 (split; [reflexivity|]); intros ct' [= <-]; congruence. }
  do 2 eexists. do 3 (split; [reflexivity|]). intros. split; reflexivity.
Qed.

(** The hand-over leaves the adapter alone and constructs no [Bot]; it
    returns [None] without a task, or a 204 with at most one task, for
    the bot it was given. *)
Lemma dispatch_run (json_data : json) (bot : Bot) (self : Adapter) :
  let run := dispatch json_data bot self in
  state_of run = self /\
  created_any (trace run) = [] /\
  ((outcome run = Ok None /\ tasks_of (trace run) = []) \/
   (outcome run = Ok (Some (response 204 None)) /\
    (tasks_of (trace run) = [] \/ exists e, tasks_of (trace run) = [(bot, e)]))).
Proof.
  cbv zeta. unfold dispatch, bind, try.
  destruct (classify_run json_data self) as (r & t & -> & Hc & Ht & _).
  destruct r as [event|e]; simpl.
  - destruct (create_task bot event); unfold tell, log, ret, state_of, trace, outcome;
      simpl; rewrite created_any_app, tasks_of_app, Hc, Ht; simpl;
      (repeat split; try reflexivity); right; (split; [reflexivity|]).
    + right. now exists event.
    + now left.
  - unfold tell, log, ret, state_of, trace, outcome; simpl.
    rewrite created_any_app, tasks_of_app, Hc, Ht. simpl.
    repeat split; try reflexivity. now left.
Qed.

(** One request: what it does to the adapter, which [Bot]s it
    constructs and which tasks it starts, by the identity it shows. *)
Lemma handle_http_step (request : Request.t) (self : Adapter) :
  let run := _handle_http request self in
  match observed_id self request with
  | Some bot_id =>
      if hashable bot_id then
        match registry_get (bots self) bot_id with
        | Some bot =>
            state_of run = self /\ created_any (trace run) = [] /\
            (tasks_of (trace run) = [] \/ exists e, tasks_of (trace run) = [(bot, e)])
        | None =>
            state_of run = connected self bot_id /\
            created_any (trace run) = [fresh_bot self bot_id] /\
            (tasks_of (trace run) = [] \/
             exists e, tasks_of (trace run) = [(fresh_bot self bot_id, e)])
        end
      else
        state_of run = self /\ created_any (trace run) = [] /\ tasks_of (trace run) = []
  | None =>
      state_of run = self /\ created_any (trace run) = [] /\ tasks_of (trace run) = []
  end.
Proof.
  cbv zeta. unfold observed_id, _handle_http, bind.
  rewrite check_signature_run.
  destruct (opt_str_eqb _ _); simpl; [|now repeat split].
  destruct (if_truthy (Request.content request)) as [data|]; [|now repeat split].
  unfold loads, bind, tell, lift. simpl.
  destruct (json_loads data) as [json_data|e]; simpl; [|now repeat split].
  destruct (getitem json_data "chatbotCorpId") as [bot_id|e]; simpl; [|now repeat split].
  rewrite get_or_connect_run.
  destruct (hashable bot_id) eqn:Hh; [|now repeat split].
  destruct (registry_get (bots self) bot_id) as [bot|].
  - pose proof (dispatch_run json_data bot self) as D. cbv zeta in D.
    unfold state_of, trace, outcome in *.
    destruct (dispatch json_data bot self) as [[r s'] t]. simpl in *.
    destruct D as (-> & Hc & Ht). repeat split; [assumption|].
    destruct Ht as [[_ Ht]|[_ Ht]]; [now left|exact Ht].
  - cbv zeta. destruct bot_id; try discriminate; try (now repeat split; left).
    pose proof (dispatch_run json_data (fresh_bot self (JStr s)) (connected self (JStr s))) as D.
    cbv zeta in D. unfold state_of, trace, outcome in *.
    destruct (dispatch json_data _ (connected self (JStr s))) as [[r s'] t]. simpl in *.
    destruct D as (-> & Hc & Ht). rewrite Hc. repeat split.
    destruct Ht as [[_ Ht]|[_ Ht]]; [now left|exact Ht].
Qed.

End Handler.

(** ** The registry over a run of requests *)

Section Registry.

Lemma key_eqb_str_r (k : json) (s : string) :
  key_eqb k (JStr s) = true -> k = JStr s.
Proof.
  destruct k; simpl; try discriminate.
  intros E. apply String.eqb_eq in E. now subst.
Qed.

Lemma key_eqb_str_l (k : json) (s : string) :
  key_eqb (JStr s) k = true -> k = JStr s.
Proof.
  destruct k; simpl; try discriminate.
  intros E. apply String.eqb_eq in E. now subst.
Qed.

Lemma key_eqb_str_refl (s : string) : key_eqb (JStr s) (JStr s) = true.
Proof. simpl. apply String.eqb_refl. Qed.

Lemma registry_get_entries (r : list (json * Bot)) (k : json) :
  registry_get r k = option_map snd (hd_error (entries k r)).
Proof.
  induction r as [|[k' b] r IH]; simpl; [reflexivity|].
  destruct (key_eqb k' k); simpl; [reflexivity|exact IH].
Qed.

Lemma registry_get_in (r : list (json * Bot)) (k : json) (b : Bot) :
  registry_get r k = Some b -> exists k', In (k', b) r /\ key_eqb k' k = true.
Proof.
  induction r as [|[k' b'] r IH]; simpl; [discriminate|].
  destruct (key_eqb k' k) eqn:E.
  - intros [= <-]. exists k'. split; [now left|exact E].
  - intros G. destruct (IH G) as (k0 & Hin & Hk). exists k0. split; [now right|exact Hk].
Qed.

Lemma registry_set_fresh (r : list (json * Bot)) (k : json) (b : Bot) :
  registry_get r k = None -> registry_set r k b = (r ++ [(k, b)])%list.
Proof.
  induction r as [|[k' b'] r IH]; simpl; [reflexivity|].
  destruct (key_eqb k' k); [discriminate|].
  intros G. now rewrite IH.
Qed.

Lemma entries_app (k : json) (r r' : list (json * Bot)) :
  entries k (r ++ r') = (entries k r ++ entries k r')%list.
Proof. apply filter_app. Qed.

Lemma entries_none (r : list (json * Bot)) (k : json) :
  registry_get r k = None -> entries k r = [].
Proof.
  rewrite registry_get_entries.
  destruct (entries k r) as [|[k' b] l]; [reflexivity|discriminate].
Qed.

Lemma entries_some (s : string) (r : list (json * Bot)) (b : Bot) :
  registry_ok s r -> registry_get r (JStr s) = Some b ->
  entries (JStr s) r = [(JStr s, b)].
Proof.
  intros [_ Hlen] G. rewrite registry_get_entries in G.
  destruct (entries (JStr s) r) as [|[k' b'] l] eqn:E; [discriminate|].
  simpl in G. injection G as ->.
  assert (Hk : key_eqb k' (JStr s) = true).
  { assert (I : In (k', b) (entries (JStr s) r)) by (rewrite E; now left).
    apply filter_In in I. exact (proj2 I). }
  apply key_eqb_str_r in Hk. subst k'.
  destruct l; [reflexivity|simpl in Hlen; lia].
Qed.

End Registry.

Section Identity.
Context `{Host}.
Variable s : string.

Lemma shows_iff (self : Adapter) (request : Request.t) :
  shows self s request = true <-> observed_id self request = Some (JStr s).
Proof.
  unfold shows. destruct (observed_id self request) as [[| | | |s'| |]|];
    try (split; discriminate).
  rewrite String.eqb_eq. split; congruence.
Qed.

Lemma observed_id_config (a b : Adapter) (request : Request.t) :
  adapter_config a = adapter_config b ->
  observed_id a request = observed_id b request.
Proof.
  intros E. unfold observed_id. rewrite !check_signature_run.
  unfold expected_sign. rewrite E.
  destruct (opt_str_eqb _ _); reflexivity.
Qed.

Lemma shows_config (a b : Adapter) (request : Request.t) :
  adapter_config a = adapter_config b ->
  shows a s request = shows b s request.
Proof.
  intros E. unfold shows. now rewrite (observed_id_config a b request E).
Qed.

Lemma is_id_fresh (self : Adapter) (k : json) :
  is_id s (fresh_bot self k) = key_eqb k (JStr s).
Proof. reflexivity. Qed.

Lemma connected_bots (self : Adapter) (k : json) :
  registry_get (bots self) k = None ->
  bots (connected self k) = (bots self ++ [(k, fresh_bot self k)])%list.
Proof. intros G. simpl. now apply registry_set_fresh. Qed.

Lemma connected_ok (self : Adapter) (k : json) :
  registry_ok s (bots self) ->
  registry_get (bots self) k = None ->
  registry_ok s (bots (connected self k)).
Proof.
  intros [Hk Hlen] G. rewrite (connected_bots self k G). split.
  - intros k0 b0 I. apply in_app_or in I. destruct I as [I|[I|[]]].
    + now apply Hk.
    + now injection I as <- <-.
  - rewrite entries_app, length_app. unfold entries at 2. simpl.
    destruct (key_eqb k (JStr s)) eqn:E; simpl; [|lia].
    apply key_eqb_str_r in E. subst k.
    rewrite (entries_none _ _ G). simpl. lia.
Qed.

Lemma connected_other (self : Adapter) (k : json) :
  registry_get (bots self) k = None ->
  key_eqb k (JStr s) = false ->
  registry_get (bots (connected self k)) (JStr s) = registry_get (bots self) (JStr s).
Proof.
  intros G E. rewrite (connected_bots self k G), !registry_get_entries, entries_app.
  unfold entries at 2. simpl. rewrite E. now rewrite app_nil_r.
Qed.

Lemma connected_same (self : Adapter) :
  registry_get (bots self) (JStr s) = None ->
  registry_get (bots (connected self (JStr s))) (JStr s)
  = Some (fresh_bot self (JStr s)).
Proof.
  intros G. rewrite (connected_bots self _ G), registry_get_entries, entries_app.
  rewrite (entries_none _ _ G). unfold entries. simpl.
  now rewrite String.eqb_refl.
Qed.

(** A bot found under another key is not a bot of identity [s]. *)
Lemma found_other (r : list (json * Bot)) (k : json) (bot : Bot) :
  registry_ok s r ->
  registry_get r k = Some bot ->
  k <> JStr s ->
  is_id s bot = false.
Proof.
  intros [Hk _] G N. destruct (registry_get_in r k bot G) as (k' & I & E).
  unfold is_id. rewrite (Hk k' bot I).
  destruct (key_eqb k' (JStr s)) eqn:E'; [|reflexivity].
  apply key_eqb_str_r in E'. subst k'. apply key_eqb_str_l in E. contradiction.
Qed.

Lemma dispatched_of_tasks (t : list effect) (bot : Bot) :
  (tasks_of t = [] \/ exists e, tasks_of t = [(bot, e)]) ->
  dispatched s t = [] \/ dispatched s t = [bot].
Proof.
  unfold dispatched. intros [->|[e ->]]; simpl; [now left|].
  destruct (is_id s bot); [now right|now left].
Qed.

Lemma dispatched_is_id (t : list effect) (bot : Bot) :
  dispatched s t = [bot] -> is_id s bot = true.
Proof.
  intros E. assert (I : In bot (dispatched s t)) by (rewrite E; now left).
  unfold dispatched in I. apply filter_In in I. exact (proj2 I).
Qed.

(** One request, seen from identity [s]. *)
Lemma handle_http_identity (request : Request.t) (self : Adapter) :
  registry_ok s (bots self) ->
  let run := _handle_http request self in
  adapter_config (state_of run) = adapter_config self /\
  registry_ok s (bots (state_of run)) /\
  if shows self s request then
    match registry_get (bots self) (JStr s) with
    | Some bot =>
        registry_get (bots (state_of run)) (JStr s) = Some bot /\
        created s (trace run) = [] /\
        Forall (eq bot) (dispatched s (trace run))
    | None =>
        registry_get (bots (state_of run)) (JStr s) = Some (fresh_bot self (JStr s)) /\
        created s (trace run) = [fresh_bot self (JStr s)] /\
        Forall (eq (fresh_bot self (JStr s))) (dispatched s (trace run))
    end
  else
    registry_get (bots (state_of run)) (JStr s) = registry_get (bots self) (JStr s) /\
    created s (trace run) = [] /\
    dispatched s (trace run) = [].
Proof.
  intros Hok. cbv zeta.
  pose proof (handle_http_step request self) as St. cbv zeta in St.
  pose proof (shows_iff self request) as Sh.
  destruct (observed_id self request) as [k|].
  2:{ destruct St as (-> & Hc & Ht).
      destruct (shows self s request); [destruct Sh as [Sh _]; discriminate (Sh eq_refl)|].
      unfold created, dispatched. rewrite Hc, Ht.
      split; [reflexivity|]. split; [assumption|]. now repeat split. }
  destruct (hashable k) eqn:Hh.
  2:{ destruct St as (-> & Hc & Ht).
      destruct (shows self s request).
      { destruct Sh as [Sh _]. injection (Sh eq_refl) as ->. discriminate. }
      unfold created, dispatched. rewrite Hc, Ht.
      split; [reflexivity|]. split; [assumption|]. now repeat split. }
  destruct (registry_get (bots self) k) as [bot|] eqn:G.
  - destruct St as (-> & Hc & Ht).
    split; [reflexivity|]. split; [assumption|].
    apply dispatched_of_tasks in Ht.
    destruct (shows self s request).
    + destruct Sh as [Sh _]. injection (Sh eq_refl) as ->. rewrite G.
      unfold created. rewrite Hc. repeat split.
      destruct Ht as [->| ->]; repeat constructor.
    + assert (N : k <> JStr s).
      { intros ->. destruct Sh as [_ Sh]. discriminate (Sh eq_refl). }
      unfold created. rewrite Hc. repeat split.
      destruct Ht as [Ht|Ht]; [assumption|].
      pose proof (found_other _ _ _ Hok G N) as F.
      exfalso. apply (dispatched_is_id _ bot) in Ht. congruence.
  - destruct St as (-> & Hc & Ht).
    split; [reflexivity|]. split; [now apply connected_ok|].
    apply dispatched_of_tasks in Ht.
    destruct (shows self s request).
    + destruct Sh as [Sh _]. injection (Sh eq_refl) as ->. rewrite G.
      split; [now apply connected_same|].
      unfold created. rewrite Hc. simpl. rewrite is_id_fresh, key_eqb_str_refl.
      split; [reflexivity|].
      destruct Ht as [->| ->]; repeat constructor.
    + assert (E : key_eqb k (JStr s) = false).
      { destruct (key_eqb k (JStr s)) eqn:E; [|reflexivity].
        apply key_eqb_str_r in E. subst k.
        destruct Sh as [_ Sh]. discriminate (Sh eq_refl). }
      split; [now apply connected_other|].
      unfold created. rewrite Hc. simpl. rewrite is_id_fresh, E.
      split; [reflexivity|].
      destruct Ht as [Ht|Ht]; [assumption|].
      exfalso. apply (dispatched_is_id _ (fresh_bot self k)) in Ht.
      rewrite is_id_fresh in Ht. congruence.
Qed.

End Identity.

Section Serving.
Context `{Host}.
Variable s : string.

Lemma serve_cons (request : Request.t) (rest : list Request.t) (self : Adapter) :
  let x := _handle_http request self in
  let y := serve rest (state_of x) in
  state_of (serve (request :: rest) self) = state_of y /\
  trace (serve (request :: rest) self) = (trace x ++ trace y)%list.
Proof.
  cbv zeta. simpl. unfold bind, try, ret, state_of, trace.
  destruct (_handle_http request self) as [[o s1] t1]. simpl.
  destruct (serve rest s1) as [[[outs|e] s2] t2]; simpl;
    rewrite ?app_nil_r; split; reflexivity.
Qed.

Lemma created_app (t1 t2 : list effect) :
  created s (t1 ++ t2) = (created s t1 ++ created s t2)%list.
Proof. unfold created. now rewrite created_any_app, filter_app. Qed.

Lemma dispatched_app (t1 t2 : list effect) :
  dispatched s (t1 ++ t2) = (dispatched s t1 ++ dispatched s t2)%list.
Proof. unfold dispatched. now rewrite tasks_of_app, map_app, filter_app. Qed.

Lemma existsb_shows_config (a b : Adapter) (requests : list Request.t) :
  adapter_config a = adapter_config b ->
  existsb (shows a s) requests = existsb (shows b s) requests.
Proof.
  intros E. induction requests as [|r rest IH]; simpl; [reflexivity|].
  now rewrite IH, (shows_config s a b r E).
Qed.

(** The registry under identity [s] over a run: an entry that is
    there stays, with no further construction; an absent one appears
    with the first request that shows [s], once. *)
Lemma serve_identity (requests : list Request.t) :
  forall self : Adapter,
    registry_ok s (bots self) ->
    let run := serve requests self in
    registry_ok s (bots (state_of run)) /\
    match registry_get (bots self) (JStr s) with
    | Some bot =>
        registry_get (bots (state_of run)) (JStr s) = Some bot /\
        created s (trace run) = [] /\
        Forall (eq bot) (dispatched s (trace run))
    | None =>
        if existsb (shows self s) requests then
          exists bot,
            registry_get (bots (state_of run)) (JStr s) = Some bot /\
            created s (trace run) = [bot] /\
            Forall (eq bot) (dispatched s (trace run))
        else
          registry_get (bots (state_of run)) (JStr s) = None /\
          created s (trace run) = [] /\
          dispatched s (trace run) = []
    end.
Proof.
  induction requests as [|request rest IH]; intros self Hok; cbv zeta.
  - unfold serve, ret, state_of, trace. simpl. split; [assumption|].
    destruct (registry_get (bots self) (JStr s)); repeat split; constructor.
  - destruct (serve_cons request rest self) as [-> ->].
    destruct (handle_http_identity s request self Hok) as (Hcfg & Hok1 & Hstep).
    specialize (IH _ Hok1). cbv zeta in IH. destruct IH as [Hok2 IH].
    split; [assumption|].
    rewrite created_app, dispatched_app. simpl existsb.
    rewrite <- (existsb_shows_config _ _ rest Hcfg).
    destruct (shows self s request); simpl.
    + destruct (registry_get (bots self) (JStr s)) as [bot|].
      * destruct Hstep as (G1 & C1 & D1). rewrite G1 in IH.
        destruct IH as (G2 & C2 & D2). rewrite C1, C2.
        repeat split; try assumption. now apply Forall_app.
      * destruct Hstep as (G1 & C1 & D1). rewrite G1 in IH.
        destruct IH as (G2 & C2 & D2). rewrite C1, C2.
        eexists. repeat split; try eassumption. now apply Forall_app.
    + destruct Hstep as (G1 & C1 & D1). rewrite G1 in IH. rewrite C1, D1. simpl.
      exact IH.
Qed.

(** C8.  Over any run of inbound requests on an adapter that starts
    with an empty registry: if some request is authenticated and shows
    the [chatbotCorpId] [s], exactly one [Bot] is constructed for [s],
    the registry holds exactly one entry under [s], that instance, and
    every event handed over for [s] goes to it; if none does, no [Bot]
    exists for [s]. *)
Theorem serve_one_bot_per_identity (requests : list Request.t) (self : Adapter) :
  bots self = [] ->
  let run := serve requests self in
  let registry := bots (state_of run) in
  if existsb (shows self s) requests then
    exists bot,
      created s (trace run) = [bot] /\
      entries (JStr s) registry = [(JStr s, bot)] /\
      registry_get registry (JStr s) = Some bot /\
      Forall (eq bot) (dispatched s (trace run))
  else
    created s (trace run) = [] /\
    entries (JStr s) registry = [] /\
    dispatched s (trace run) = [].
Proof.
  intros Hempty. cbv zeta.
  assert (Hok : registry_ok s (bots self)).
  { rewrite Hempty. split; [intros k b []|simpl; lia]. }
  pose proof (serve_identity requests self Hok) as S. cbv zeta in S.
  rewrite Hempty in S. simpl registry_get in S.
  destruct S as [Hok' S].
  destruct (existsb (shows self s) requests).
  - destruct S as (bot & G & C & D). exists bot.
    repeat split; try assumption. now apply entries_some.
  - destruct S as (G & C & D). repeat split; try assumption.
    now apply entries_none.
Qed.

End Serving.

(** ** Unrecognised conversation types *)

Section Classification.
Context `{Host}.

(** C3, as the code has it.  For an authenticated request whose
    payload names a string [chatbotCorpId] and a [conversationType]
    that is neither recognised value, the handler logs the failure
    and hands no event to any [Bot], and then returns [None]: no
    [Response] at all, so no 204. *)
Theorem handle_http_unsupported_type (request : Request.t) (self : Adapter)
    (data : string) (json_data : json) (corp : string) (ct : json) :
  outcome (_check_signature request self) = Ok true ->
  if_truthy (Request.content request) = Some data ->
  json_loads data = Ok json_data ->
  getitem json_data "chatbotCorpId" = Ok (JStr corp) ->
  getitem json_data "conversationType" = Ok ct ->
  is_kind ct private = false ->
  is_kind ct group = false ->
  let run := _handle_http request self in
  outcome run = Ok None /\
  tasks_of (trace run) = [] /\
  In (Log "ERROR" "Event Parser Error"
        (Some (ValueError "Unsupported conversation type"))) (trace run).
Proof.
  intros Hsig Hdata Hjson Hcorp Hct Hp Hg. cbv zeta.
  unfold _handle_http, bind.
  rewrite check_signature_run in *.
  destruct (opt_str_eqb _ _); [|discriminate]. simpl.
  rewrite Hdata. unfold loads, bind, tell, lift. simpl.
  rewrite Hjson. simpl. rewrite Hcorp. simpl.
  rewrite get_or_connect_run. simpl hashable. cbv iota.
  assert (D : forall bot a,
            outcome (dispatch json_data bot a) = Ok None /\
            tasks_of (trace (dispatch json_data bot a)) = [] /\
            In (Log "ERROR" "Event Parser Error"
                  (Some (ValueError "Unsupported conversation type")))
               (trace (dispatch json_data bot a))).
  { intros bot a. unfold dispatch, bind, try.
    destruct (classify_run json_data a) as (r & t & -> & _ & _ & Hr).
    destruct (Hr ct Hct Hp Hg) as [-> ->].
    unfold log, tell, ret, outcome, trace. simpl. repeat split. now left. }
  destruct (registry_get (bots self) (JStr corp)) as [bot|]; cbv zeta.
  - specialize (D bot self). unfold outcome, trace in *.
    destruct (dispatch json_data bot self) as [[r a] t]. simpl in *.
    destruct D as (-> & Dt & Dl). repeat split; [assumption|].
    right. exact Dl.
  - specialize (D (fresh_bot self (JStr corp)) (connected self (JStr corp))).
    unfold outcome, trace in *.
    destruct (dispatch json_data _ (connected self (JStr corp))) as [[r a] t]. simpl in *.
    destruct D as (-> & Dt & Dl). repeat split; [assumption|].
    do 4 right. exact Dl.
Qed.

End Classification.

(** * The properties at work on the sample host *)

Section Examples.
Import Sample.
#[local] Existing Instance sample_host.

Lemma handle_http_bad_signature_witness :
  outcome (_check_signature (inbound "1" "forged" (Some (payload_text "B1" "1"))) adapter)
  = Ok false /\
  _handle_http (inbound "1" "forged" (Some (payload_text "B1" "1"))) adapter
  = (Ok (Some (response 401 None)), adapter, [bad_signature_line]).
Proof.
  split; [reflexivity|].
  exact (proj1 (handle_http_bad_signature
                  (inbound "1" "forged" (Some (payload_text "B1" "1"))) adapter eq_refl)).
Defined.

Lemma handle_http_negative_responses_witness :
  outcome (_check_signature (signed (Some EmptyString)) adapter) = Ok true /\
  truthy (Request.content (signed (Some EmptyString))) = false /\
  _handle_http (signed (Some EmptyString)) adapter
  = (Ok (Some (response 400 (Some "Invalid request body"))), adapter, []).
Proof.
  split; [reflexivity|]. split; [reflexivity|].
  exact (proj1 (handle_http_negative_responses (signed (Some EmptyString)) adapter)
           eq_refl eq_refl).
Defined.

Lemma call_api_session_reply_witness :
  if_truthy (Data.webhook session_reply) = None /\
  Data.event session_reply = Some the_event /\
  _call_api (world after_expiry 200 (answer_text 0 "ok")) the_bot "send_message"
    session_reply adapter
  = (Raise SessionExpired, adapter, [calling_line "send_message"]).
Proof.
  split; [reflexivity|]. split; [reflexivity|].
  destruct (call_api_session_reply
              (world after_expiry 200 (answer_text 0 "ok")) the_bot
              "send_message" session_reply adapter the_event eq_refl eq_refl)
    as (now_s & Tn & M).
  assert (Hn : now_s = 1700000001).
  { apply (truncation_unique _ _ _ Tn). vm_compute. repeat split; discriminate. }
  remember (SFdiv prec emax (Z2SF (sessionWebhookExpiredTime the_event)) (Z2SF 1000))
    as quotient eqn:Q.
  vm_compute in Q. subst quotient. cbv beta iota in M.
  destruct M as (expiry_s & Tx & Hlate & _).
  assert (Hx : expiry_s = 1700000000).
  { apply (truncation_unique _ _ _ Tx). vm_compute. repeat split; discriminate. }
  subst. apply Hlate. reflexivity.
Defined.

(** C1, as stated, fails: at the expiry instant, and 750 ms past it,
    a session reply raises no [SessionExpired]; the request goes out
    to the session webhook and the call returns the vendor's answer. *)
Lemma session_reply_at_or_past_expiry_is_sent :
  sessionWebhookExpiredTime the_event = 1700000000000 /\
  now_timestamp at_expiry = 1700000000%float /\
  now_timestamp past_expiry = 1700000000.75%float /\
  outcome (_call_api (world at_expiry 200 (answer_text 0 "ok")) the_bot
             "send_message" session_reply adapter) = Ok (answer 0 "ok") /\
  requests_of (trace (_call_api (world at_expiry 200 (answer_text 0 "ok")) the_bot
                        "send_message" session_reply adapter))
  = [outbound (sessionWebhook the_event) [] None the_message] /\
  outcome (_call_api (world past_expiry 200 (answer_text 0 "ok")) the_bot
             "send_message" session_reply adapter) = Ok (answer 0 "ok") /\
  requests_of (trace (_call_api (world past_expiry 200 (answer_text 0 "ok")) the_bot
                        "send_message" session_reply adapter))
  = [outbound (sessionWebhook the_event) [] None the_message].
Proof. vm_compute. repeat split. Qed.

Lemma call_api_not_available_witness :
  if_truthy (Data.webhook unaddressed) = None /\
  Data.event unaddressed = None /\
  _call_api (world at_expiry 200 (answer_text 0 "ok")) the_bot "send_message"
    unaddressed adapter
  = (Raise ApiNotAvailable, adapter, [calling_line "send_message"]).
Proof.
  split; [reflexivity|]. split; [reflexivity|].
  exact (proj1 (call_api_not_available
                  (world at_expiry 200 (answer_text 0 "ok")) the_bot
                  "send_message" unaddressed adapter eq_refl eq_refl)).
Defined.

Lemma call_api_webhook_over_event_witness :
  if_truthy (Data.webhook direct_unsigned) = Some "https://oapi.example/robot/send" /\
  Data.event direct_unsigned = Some the_event /\
  outcome (_call_api (world long_after 200 (answer_text 0 "ok")) the_bot
             "send_message" direct_unsigned adapter) <> Raise SessionExpired.
Proof.
  split; [reflexivity|]. split; [reflexivity|].
  exact (proj1 (call_api_webhook_over_event
                  (world long_after 200 (answer_text 0 "ok")) the_bot
                  "send_message" direct_unsigned adapter
                  "https://oapi.example/robot/send" the_event eq_refl eq_refl)).
Defined.

Lemma call_api_direct_webhook_signing_witness :
  if_truthy (Data.webhook direct_signed) = Some "https://oapi.example/robot/send" /\
  exists r,
    requests_of (trace (_call_api (world odd_reading 200 (answer_text 0 "ok"))
                          the_bot "send_message" direct_signed adapter)) = [r].
Proof.
  split; [reflexivity|].
  exact (proj1 (call_api_direct_webhook_signing
                  (world odd_reading 200 (answer_text 0 "ok")) the_bot
                  "send_message" direct_signed adapter
                  "https://oapi.example/robot/send" eq_refl)
           _ _ eq_refl).
Defined.

(** The signed request of that call, in full: the clock reads
    1700000001.0005002, whose product with 1000 lies above the tie. *)
Example direct_signed_params :
  map Request.params
    (requests_of (trace (_call_api (world odd_reading 200 (answer_text 0 "ok"))
                           the_bot "send_message" direct_signed adapter)))
  = [[("timestamp", "1700000001001"); ("sign", "c2ln%2Bk3y%2F1700000001001%3D")]].
Proof. reflexivity. Qed.

Lemma call_api_vendor_error_wrapped_witness :
  outcome (_call_api (world well_before 200 (answer_text 1 "bad")) the_bot
             "send_message" session_reply adapter)
  = Raise (NetworkError "HTTP request failed"
             (Some (ActionFailed (JInt 1) (JStr "bad")))).
Proof.
  refine (call_api_vendor_error_wrapped
            (world well_before 200 (answer_text 1 "bad")) the_bot "send_message"
            session_reply adapter (sessionWebhook the_event) []
            {| seg_type := "text"; seg_data := JStr "hello" |} []
            (response 200 (Some (answer_text 1 "bad"))) (answer_text 1 "bad")
            [("errcode", JInt 1); ("errmsg", JStr "bad")]
            eq_refl eq_refl eq_refl _ eq_refl eq_refl eq_refl).
  simpl. lia.
Defined.

Lemma handle_http_unsupported_type_witness :
  outcome (_handle_http (signed (Some (payload_text "B1" "3"))) adapter) = Ok None /\
  tasks_of (trace (_handle_http (signed (Some (payload_text "B1" "3"))) adapter)) = [].
Proof.
  pose proof (handle_http_unsupported_type
                (signed (Some (payload_text "B1" "3"))) adapter
                (payload_text "B1" "3") (payload "B1" "3") "B1" (JStr "3")
                eq_refl eq_refl eq_refl eq_refl eq_refl eq_refl eq_refl) as W.
  exact (conj (proj1 W) (proj1 (proj2 W))).
Defined.

Lemma serve_one_bot_per_identity_witness :
  bots adapter = [] /\
  exists bot,
    created "B1" (trace (serve deliveries adapter)) = [bot] /\
    entries (JStr "B1") (bots (state_of (serve deliveries adapter))) = [(JStr "B1", bot)] /\
    registry_get (bots (state_of (serve deliveries adapter))) (JStr "B1") = Some bot /\
    Forall (eq bot) (dispatched "B1" (trace (serve deliveries adapter))).
Proof.
  split; [reflexivity|].
  exact (serve_one_bot_per_identity "B1" deliveries adapter eq_refl).
Defined.

(** The run in full: one instance each for [B1] and [B2], three events
    handed over, the forged delivery answered 401. *)
Example deliveries_run :
  map snd (bots (state_of (serve deliveries adapter)))
  = [{| self_id := JStr "B1"; oid := 0 |}; {| self_id := JStr "B2"; oid := 1 |}] /\
  map fst (tasks_of (trace (serve deliveries adapter)))
  = [{| self_id := JStr "B1"; oid := 0 |}; {| self_id := JStr "B2"; oid := 1 |};
     {| self_id := JStr "B1"; oid := 0 |}] /\
  outcome (serve deliveries adapter)
  = Ok [Ok (Some (response 204 None)); Ok (Some (response 204 None));
        Ok (Some (response 401 None)); Ok (Some (response 204 None))].
Proof. repeat split. Qed.

End Examples.

(** * Further properties of the code *)

(** ** The answers of the vendor *)

Section Answers.
Context `{Host}.

(** The exchange, case by case. *)
Lemma exchange_run (env : Env) (request : Request.t) (self : Adapter) :
  exchange env request self =
  match driver_request env request with
  | Raise e => (Raise e, self, [HttpRequest request])
  | Ok resp =>
      let status := Response.status_code resp in
      if is_2xx status then
        match if_truthy (Response.content resp) with
        | None => (Raise (ValueError "Empty response"), self, [HttpRequest request])
        | Some body =>
            match json_loads body with
            | Raise e => (Raise e, self, [HttpRequest request; JsonLoads body])
            | Ok (JDict d) =>
                if eqb_int (dict_get_none d "errcode") 0 then
                  (Ok (JDict d), self, [HttpRequest request; JsonLoads body])
                else
                  (Raise (ActionFailed (dict_get_none d "errcode")
                                       (dict_get_none d "errmsg")),
                   self, [HttpRequest request; JsonLoads body])
            | Ok _ =>
                (Raise (status_error status), self,
                 [HttpRequest request; JsonLoads body])
            end
        end
      else (Raise (status_error status), self, [HttpRequest request])
  end.
Proof.
  unfold exchange, send, loads, bind, tell, lift, ret, raise, is_2xx, status_error.
  simpl.
  destruct (driver_request env request) as [resp|e]; simpl; [|reflexivity].
  destruct ((200 <=? _) && (_ <? 300)); simpl; [|reflexivity].
  destruct (if_truthy _) as [body|]; simpl; [|reflexivity].
  destruct (json_loads body) as [[| | | | | |d]|e]; simpl; try reflexivity.
  destruct (eqb_int _ 0); reflexivity.
Qed.

Section Addressed.
Variables (env : Env) (bot : Bot) (api : string) (data : Data.t) (self : Adapter).
Variables (webhook : string) (params : list (string * string)).
Variables (seg : MessageSegment) (m : Message).
Hypothesis Hresolve : outcome (resolve env data self) = Ok (webhook, params).
Hypothesis Hmessage : Data.message data = Some (seg :: m).

Let request : Request.t := outbound webhook params (api_timeout self) (seg :: m).

Lemma call_api_exchange :
  _call_api env bot api data self =
  (match outcome (exchange env request self) with
   | Ok result => Ok result
   | Raise e => Raise (request_failed e)
   end, self, calling_line api :: trace (exchange env request self)).
Proof. now rewrite call_api_run, Hresolve, Hmessage. Qed.

(** A 2xx answer whose body decodes to an object with [errcode] equal
    to 0 is the result of the call; one request was sent and its body
    decoded once. *)
Theorem call_api_success (resp : Response.t) (body : string)
    (d : list (string * json)) :
  driver_request env request = Ok resp ->
  is_2xx (Response.status_code resp) = true ->
  if_truthy (Response.content resp) = Some body ->
  json_loads body = Ok (JDict d) ->
  eqb_int (dict_get_none d "errcode") 0 = true ->
  _call_api env bot api data self
  = (Ok (JDict d), self, [calling_line api; HttpRequest request; JsonLoads body]).
Proof.
  intros Hd Hs Hb Hj He.
  rewrite call_api_exchange, exchange_run, Hd. cbv zeta.
  now rewrite Hs, Hb, Hj, He.
Qed.

(** An exception of the driver reaches the caller as
    [NetworkError("HTTP request failed")] with that exception as its
    cause. *)
Theorem call_api_transport_error (e : exn) :
  driver_request env request = Raise e ->
  _call_api env bot api data self
  = (Raise (request_failed e), self, [calling_line api; HttpRequest request]).
Proof.
  intros Hd. now rewrite call_api_exchange, exchange_run, Hd.
Qed.

(** An answer outside 200..299 raises [NetworkError] whose cause is
    the [NetworkError] naming the status code, and its body is never
    decoded. *)
Theorem call_api_bad_status (resp : Response.t) :
  driver_request env request = Ok resp ->
  is_2xx (Response.status_code resp) = false ->
  _call_api env bot api data self
  = (Raise (request_failed (status_error (Response.status_code resp))), self,
     [calling_line api; HttpRequest request]).
Proof.
  intros Hd Hs. rewrite call_api_exchange, exchange_run, Hd. cbv zeta.
  now rewrite Hs.
Qed.

(** A 2xx answer with no body, or an empty one, raises [NetworkError]
    whose cause is [ValueError("Empty response")]. *)
Theorem call_api_empty_body (resp : Response.t) :
  driver_request env request = Ok resp ->
  is_2xx (Response.status_code resp) = true ->
  truthy (Response.content resp) = false ->
  _call_api env bot api data self
  = (Raise (request_failed (ValueError "Empty response")), self,
     [calling_line api; HttpRequest request]).
Proof.
  intros Hd Hs Hb. rewrite call_api_exchange, exchange_run, Hd. cbv zeta.
  unfold if_truthy. now rewrite Hs, Hb.
Qed.

(** A 2xx answer whose body does not decode raises [NetworkError]
    whose cause is the decoder's exception. *)
Theorem call_api_undecodable_body (resp : Response.t) (body : string) (e : exn) :
  driver_request env request = Ok resp ->
  is_2xx (Response.status_code resp) = true ->
  if_truthy (Response.content resp) = Some body ->
  json_loads body = Raise e ->
  _call_api env bot api data self
  = (Raise (request_failed e), self,
     [calling_line api; HttpRequest request; JsonLoads body]).
Proof.
  intros Hd Hs Hb Hj. rewrite call_api_exchange, exchange_run, Hd. cbv zeta.
  now rewrite Hs, Hb, Hj.
Qed.

(** A 2xx answer whose body decodes to anything but an object falls
    through to the status-code error, although the status is 2xx. *)
Theorem call_api_non_object_body (resp : Response.t) (body : string) (j : json) :
  driver_request env request = Ok resp ->
  is_2xx (Response.status_code resp) = true ->
  if_truthy (Response.content resp) = Some body ->
  json_loads body = Ok j ->
  (forall d, j <> JDict d) ->
  _call_api env bot api data self
  = (Raise (request_failed (status_error (Response.status_code resp))), self,
     [calling_line api; HttpRequest request; JsonLoads body]).
Proof.
  intros Hd Hs Hb Hj Hn. rewrite call_api_exchange, exchange_run, Hd. cbv zeta.
  rewrite Hs, Hb, Hj. destruct j; try reflexivity. now destruct (Hn d).
Qed.

(** An object without an [errcode], or with [null] for it, counts as
    a vendor error: [None != 0]. *)
Theorem call_api_missing_errcode (resp : Response.t) (body : string)
    (d : list (string * json)) :
  driver_request env request = Ok resp ->
  is_2xx (Response.status_code resp) = true ->
  if_truthy (Response.content resp) = Some body ->
  json_loads body = Ok (JDict d) ->
  dict_get_none d "errcode" = JNone ->
  outcome (_call_api env bot api data self)
  = Raise (request_failed (ActionFailed JNone (dict_get_none d "errmsg"))).
Proof.
  intros Hd Hs Hb Hj He. rewrite call_api_exchange, exchange_run, Hd. cbv zeta.
  now rewrite Hs, Hb, Hj, He.
Qed.

End Addressed.

(** Without a message, or with an empty one, a call whose addressing
    succeeds raises [ValueError("Message not found")], unwrapped, and
    sends nothing. *)
Theorem call_api_no_message (env : Env) (bot : Bot) (api : string) (data : Data.t)
    (self : Adapter) (webhook : string) (params : list (string * string)) :
  outcome (resolve env data self) = Ok (webhook, params) ->
  Data.message data = None \/ Data.message data = Some [] ->
  _call_api env bot api data self
  = (Raise (ValueError "Message not found"), self, [calling_line api]).
Proof.
  intros R [Hm|Hm]; now rewrite call_api_run, R, Hm.
Qed.

(** A call never changes the adapter and sends at most one request;
    what it sends is a POST with the JSON content type, the configured
    timeout, and the serialised message as its body. *)
Theorem call_api_frame (env : Env) (bot : Bot) (api : string) (data : Data.t)
    (self : Adapter) :
  let run := _call_api env bot api data self in
  state_of run = self /\
  (length (requests_of (trace run)) <= 1)%nat /\
  forall r, In r (requests_of (trace run)) ->
    Request.method r = "POST" /\
    Request.headers r = [("Content-Type", "application/json")] /\
    Request.timeout r = api_timeout self /\
    exists message,
      Data.message data = Some message /\
      Request.content r = Some (json_dumps (produce message)).
Proof.
  cbv zeta. split; [|split].
  - rewrite call_api_run.
    destruct (outcome (resolve env data self)) as [[w p]|e]; [|reflexivity].
    destruct (Data.message data) as [[|seg m]|]; reflexivity.
  - rewrite call_api_requests.
    destruct (outcome (resolve env data self)) as [[w p]|e]; [|simpl; lia].
    destruct (Data.message data) as [[|seg m]|]; simpl; lia.
  - intros r. rewrite call_api_requests.
    destruct (outcome (resolve env data self)) as [[w p]|e]; [|intros []].
    destruct (Data.message data) as [[|seg m]|]; simpl; try tauto.
    intros [<-|[]]. repeat split. now exists (seg :: m).
Qed.

(** What a call can come to: it returns an object whose [errcode]
    equals 0, after one request; or it raises [SessionExpired],
    [ApiNotAvailable], the [OverflowError] of an expiry too large for
    a float, or [ValueError("Message not found")], without a request;
    or it raises [NetworkError("HTTP request failed")] with a cause,
    after one request. *)
Theorem call_api_outcomes (env : Env) (bot : Bot) (api : string) (data : Data.t)
    (self : Adapter) :
  let run := _call_api env bot api data self in
  match outcome run with
  | Ok result =>
      (exists d, result = JDict d /\ eqb_int (dict_get_none d "errcode") 0 = true) /\
      length (requests_of (trace run)) = 1%nat
  | Raise e =>
      ((e = SessionExpired \/ e = ApiNotAvailable \/
        e = OverflowError "integer division result too large for a float" \/
        e = ValueError "Message not found") /\
       requests_of (trace run) = []) \/
      ((exists cause, e = request_failed cause) /\
       length (requests_of (trace run)) = 1%nat)
  end.
Proof.
  cbv zeta. rewrite call_api_requests, call_api_run.
  destruct (outcome (resolve env data self)) as [[w p]|e] eqn:R.
  - destruct (Data.message data) as [[|seg m]|]; unfold outcome at 1; simpl;
      try (left; split; [now right; right; right|reflexivity]).
    rewrite exchange_run.
    destruct (driver_request env _) as [resp|e]; simpl.
    2:{ right. split; [now exists e|reflexivity]. }
    destruct (is_2xx _); simpl.
    2:{ right. split; [eexists; reflexivity|reflexivity]. }
    destruct (if_truthy _) as [body|]; simpl.
    2:{ right. split; [eexists; reflexivity|reflexivity]. }
    destruct (json_loads body) as [[| | | | | |d]|e]; simpl;
      try (right; split; [eexists; reflexivity|reflexivity]).
    destruct (eqb_int _ 0) eqn:E; simpl.
    + split; [now exists d|reflexivity].
    + right. split; [eexists; reflexivity|reflexivity].
  - unfold outcome at 1; simpl. left. split; [|reflexivity].
    apply resolve_raises in R. destruct R as [R|[R|R]]; subst; tauto.
Qed.

End Answers.

(** ** Deliveries, path by path *)

Section Deliveries.
Context `{Host}.

Lemma classify_cases (json_data : json) (self : Adapter) :
  classify json_data self =
  match getitem json_data "conversationType" with
  | Raise e => (Raise e, self, [])
  | Ok ct =>
      match recognised ct with
      | Some k => (parse_obj k json_data, self, [ParseObj k json_data])
      | None => (Raise (ValueError "Unsupported conversation type"), self, [])
      end
  end.
Proof.
  unfold classify, recognised, parse, bind, lift, tell, raise. simpl.
  destruct (getitem json_data "conversationType") as [ct|e]; simpl; [|reflexivity].
  destruct (is_kind ct private); simpl.
  { destruct (parse_obj private json_data); reflexivity. }
  destruct (is_kind ct group); simpl; [|reflexivity].
  destruct (parse_obj group json_data); reflexivity.
Qed.

Lemma dispatch_cases (json_data : json) (bot : Bot) (self : Adapter) :
  dispatch json_data bot self =
  let c := classify json_data self in
  match outcome c with
  | Raise e => (Ok None, self, trace c ++ [parser_line e])%list
  | Ok event =>
      match create_task bot event with
      | Ok _ => (Ok (Some accepted), self, trace c ++ [CreateTask bot event])%list
      | Raise e => (Ok (Some accepted), self, trace c ++ [failed_line json_data e])%list
      end
  end.
Proof.
  cbv zeta. unfold dispatch, bind, try. rewrite classify_cases.
  destruct (getitem json_data "conversationType") as [ct|e]; [|reflexivity].
  destruct (recognised ct) as [k|]; [|reflexivity].
  destruct (parse_obj k json_data) as [event|e]; [|reflexivity].
  unfold outcome, trace. simpl.
  destruct (create_task bot event); reflexivity.
Qed.

Section Authenticated.
Variables (request : Request.t) (self : Adapter) (data : string).
Hypothesis Hsig : outcome (_check_signature request self) = Ok true.
Hypothesis Hdata : if_truthy (Request.content request) = Some data.

Lemma handle_http_body :
  _handle_http request self =
  match json_loads data with
  | Raise e => (Raise e, self, [JsonLoads data])
  | Ok json_data =>
      match getitem json_data "chatbotCorpId" with
      | Raise e => (Raise e, self, [JsonLoads data])
      | Ok bot_id =>
          match get_or_connect bot_id self with
          | (Raise e, self1, t1) => (Raise e, self1, JsonLoads data :: t1)
          | (Ok bot, self1, t1) =>
              let x := dispatch json_data bot self1 in
              (outcome x, state_of x, (JsonLoads data :: t1 ++ trace x)%list)
          end
      end
  end.
Proof.
  unfold _handle_http, bind. rewrite check_signature_run in *.
  destruct (opt_str_eqb _ _); [|discriminate]. simpl.
  rewrite Hdata. unfold loads, bind, tell, lift. simpl.
  destruct (json_loads data) as [json_data|e]; simpl; [|reflexivity].
  destruct (getitem json_data "chatbotCorpId") as [bot_id|e]; simpl; [|reflexivity].
  destruct (get_or_connect bot_id self) as [[[bot|e] self1] t1]; simpl; [|reflexivity].
  unfold outcome, state_of, trace.
  destruct (dispatch json_data bot self1) as [[r self2] t2]. reflexivity.
Qed.

(** A body that does not decode: the decoder's exception leaves the
    handler as it is (no 400), the adapter is unchanged and nothing
    else happened. *)
Theorem handle_http_undecodable_body (e : exn) :
  json_loads data = Raise e ->
  _handle_http request self = (Raise e, self, [JsonLoads data]).
Proof. intros Hj. now rewrite handle_http_body, Hj. Qed.

(** A payload without [chatbotCorpId]: [KeyError] when it is an
    object, [TypeError] when it is not; the adapter is unchanged, no
    [Bot] is constructed and no event is read. *)
Theorem handle_http_missing_identity (json_data : json) :
  json_loads data = Ok json_data ->
  (forall d, json_data = JDict d -> dict_get d "chatbotCorpId" = None) ->
  _handle_http request self
  = (Raise (match json_data with
            | JDict _ => KeyError "chatbotCorpId"
            | _ => TypeError
            end), self, [JsonLoads data]).
Proof.
  intros Hj Hk. rewrite handle_http_body, Hj.
  destruct json_data; try reflexivity.
  simpl. now rewrite (Hk d eq_refl).
Qed.

(** An identity that is no string.  A list or an object cannot be
    looked up: [TypeError], nothing changes.  Any other value that is
    not registered yet gets its [Bot] constructed and registered, and
    then the log line raises [TypeError]: the request fails with the
    bot left in the registry. *)
Theorem handle_http_non_string_identity (json_data bot_id : json) :
  json_loads data = Ok json_data ->
  getitem json_data "chatbotCorpId" = Ok bot_id ->
  (forall s, bot_id <> JStr s) ->
  (hashable bot_id = false ->
   _handle_http request self = (Raise TypeError, self, [JsonLoads data])) /\
  (hashable bot_id = true ->
   registry_get (bots self) bot_id = None ->
   _handle_http request self
   = (Raise TypeError, connected self bot_id,
      [JsonLoads data; BotInit (fresh_bot self bot_id);
       BotConnect (fresh_bot self bot_id)]) /\
   bots (connected self bot_id)
   = (bots self ++ [(bot_id, fresh_bot self bot_id)])%list).
Proof.
  intros Hj Hk Hn. split.
  - intros Hh. now rewrite handle_http_body, Hj, Hk, get_or_connect_run, Hh.
  - intros Hh Hg. split.
    + rewrite handle_http_body, Hj, Hk, get_or_connect_run, Hh, Hg. cbv zeta.
      destruct bot_id; try reflexivity. now destruct (Hn s).
    + simpl. now apply registry_set_fresh.
Qed.

Section Identified.
Variables (json_data : json) (corp : string).
Hypothesis Hjson : json_loads data = Ok json_data.
Hypothesis Hcorp : getitem json_data "chatbotCorpId" = Ok (JStr corp).

Lemma get_or_connect_str :
  get_or_connect (JStr corp) self
  = (Ok (bot_for self corp), admitted self corp, connect_trace self corp).
Proof.
  rewrite get_or_connect_run. unfold bot_for, admitted, connect_trace. simpl.
  destruct (registry_get (bots self) (JStr corp)); reflexivity.
Qed.

Lemma handle_http_identified :
  _handle_http request self =
  let x := dispatch json_data (bot_for self corp) (admitted self corp) in
  (outcome x, state_of x,
   (JsonLoads data :: connect_trace self corp ++ trace x)%list).
Proof. now rewrite handle_http_body, Hjson, Hcorp, get_or_connect_str. Qed.

Lemma admitted_registered :
  registry_get (bots (admitted self corp)) (JStr corp) = Some (bot_for self corp).
Proof.
  unfold admitted, bot_for.
  destruct (registry_get (bots self) (JStr corp)) eqn:G; [exact G|].
  now apply connected_same.
Qed.

(** A delivery of a recognised conversation type whose payload
    validates: the event is parsed by the class of that type, handed
    once to the bot registered under the identity (constructed first
    when the identity is new), and the answer is 204. *)
Theorem handle_http_accepted (ct : json) (k : ConversationType) (event : Event) :
  getitem json_data "conversationType" = Ok ct ->
  recognised ct = Some k ->
  parse_obj k json_data = Ok event ->
  create_task (bot_for self corp) event = Ok tt ->
  _handle_http request self
  = (Ok (Some accepted), admitted self corp,
     (JsonLoads data :: connect_trace self corp
        ++ [ParseObj k json_data; CreateTask (bot_for self corp) event])%list) /\
  registry_get (bots (admitted self corp)) (JStr corp) = Some (bot_for self corp).
Proof.
  intros Hct Hk Hp Hc. split; [|apply admitted_registered].
  rewrite handle_http_identified, dispatch_cases, classify_cases, Hct, Hk, Hp.
  cbv zeta. unfold outcome, trace, state_of. simpl. now rewrite Hc.
Qed.

(** When the scheduling of the task raises, the exception is logged
    with the raw payload, no task exists, and the answer is still 204. *)
Theorem handle_http_task_refused (ct : json) (k : ConversationType) (event : Event)
    (e : exn) :
  getitem json_data "conversationType" = Ok ct ->
  recognised ct = Some k ->
  parse_obj k json_data = Ok event ->
  create_task (bot_for self corp) event = Raise e ->
  _handle_http request self
  = (Ok (Some accepted), admitted self corp,
     (JsonLoads data :: connect_trace self corp
        ++ [ParseObj k json_data; failed_line json_data e])%list).
Proof.
  intros Hct Hk Hp Hc.
  rewrite handle_http_identified, dispatch_cases, classify_cases, Hct, Hk, Hp.
  cbv zeta. unfold outcome, trace, state_of. simpl. now rewrite Hc.
Qed.

(** A payload without [conversationType]: the [KeyError] is caught
    and logged, no event class is tried, no task starts, and the
    handler returns [None]; the bot of the identity is registered all
    the same. *)
Theorem handle_http_missing_type (e : exn) :
  getitem json_data "conversationType" = Raise e ->
  _handle_http request self
  = (Ok None, admitted self corp,
     (JsonLoads data :: connect_trace self corp ++ [parser_line e])%list) /\
  e = KeyError "conversationType".
Proof.
  intros Hct. split.
  - rewrite handle_http_identified, dispatch_cases, classify_cases, Hct. reflexivity.
  - unfold getitem in *. destruct json_data; try discriminate.
    destruct (dict_get d "conversationType"); [discriminate|].
    now injection Hct as <-.
Qed.

(** A payload of a recognised type that the event class rejects: the
    validation error is caught and logged, no task starts, and the
    handler returns [None]. *)
Theorem handle_http_invalid_event (ct : json) (k : ConversationType) (e : exn) :
  getitem json_data "conversationType" = Ok ct ->
  recognised ct = Some k ->
  parse_obj k json_data = Raise e ->
  _handle_http request self
  = (Ok None, admitted self corp,
     (JsonLoads data :: connect_trace self corp
        ++ [ParseObj k json_data; parser_line e])%list).
Proof.
  intros Hct Hk Hp.
  rewrite handle_http_identified, dispatch_cases, classify_cases, Hct, Hk, Hp.
  reflexivity.
Qed.

End Identified.
End Authenticated.
End Deliveries.

(** ** The registry and repeated deliveries *)

Section Growth.
Context `{Host}.

Lemma registry_get_app_l (r ext : list (json * Bot)) (k : json) (b : Bot) :
  registry_get r k = Some b -> registry_get (r ++ ext) k = Some b.
Proof.
  induction r as [|[k' b'] r IH]; simpl; [discriminate|].
  destruct (key_eqb k' k); [trivial|exact IH].
Qed.

Lemma handle_http_extends (request : Request.t) (self : Adapter) :
  let after := state_of (_handle_http request self) in
  adapter_config after = adapter_config self /\
  api_timeout after = api_timeout self /\
  exists ext, bots after = (bots self ++ ext)%list /\ (length ext <= 1)%nat.
Proof.
  cbv zeta. pose proof (handle_http_step request self) as St. cbv zeta in St.
  assert (Same : state_of (_handle_http request self) = self ->
            adapter_config (state_of (_handle_http request self)) = adapter_config self /\
            api_timeout (state_of (_handle_http request self)) = api_timeout self /\
            exists ext, bots (state_of (_handle_http request self))
                        = (bots self ++ ext)%list /\ (length ext <= 1)%nat).
  { intros ->. split; [reflexivity|]. split; [reflexivity|].
    exists []. rewrite app_nil_r. split; [reflexivity|simpl; lia]. }
  destruct (observed_id self request) as [k|]; [|apply Same, St].
  destruct (hashable k); [|apply Same, St].
  destruct (registry_get (bots self) k) eqn:G; [apply Same, St|].
  destruct St as (-> & _). split; [reflexivity|]. split; [reflexivity|].
  exists [(k, fresh_bot self k)]. split; [now apply connected_bots|simpl; lia].
Qed.

(** Over any run of requests the registry only grows: it is the
    registry it was, followed by at most one new entry per request; so
    every identity keeps the instance it had, and the configuration is
    never touched. *)
Theorem serve_registry_grows (requests : list Request.t) :
  forall self : Adapter,
    let after := state_of (serve requests self) in
    adapter_config after = adapter_config self /\
    api_timeout after = api_timeout self /\
    (exists ext,
       bots after = (bots self ++ ext)%list /\
       (length ext <= length requests)%nat) /\
    (forall k b, registry_get (bots self) k = Some b ->
       registry_get (bots after) k = Some b).
Proof.
  induction requests as [|request rest IH]; intros self; cbv zeta.
  - unfold serve, ret, state_of. simpl.
    split; [reflexivity|]. split; [reflexivity|]. split; [|tauto].
    exists []. rewrite app_nil_r. split; [reflexivity|simpl; lia].
  - destruct (serve_cons request rest self) as [-> _].
    destruct (handle_http_extends request self) as (C1 & T1 & ext1 & E1 & L1).
    destruct (IH (state_of (_handle_http request self))) as (C2 & T2 & (ext2 & E2 & L2) & K2).
    split; [congruence|]. split; [congruence|]. split.
    + exists (ext1 ++ ext2)%list. rewrite E2, E1, app_assoc, length_app.
      split; [reflexivity|simpl; lia].
    + intros k b G. apply K2. rewrite E1. now apply registry_get_app_l.
Qed.

Lemma serve_cons_outcome (request : Request.t) (rest : list Request.t) (self : Adapter) :
  outcome (serve (request :: rest) self) =
  match outcome (serve rest (state_of (_handle_http request self))) with
  | Ok outs => Ok (outcome (_handle_http request self) :: outs)
  | Raise e => Raise e
  end.
Proof.
  simpl. unfold bind, try, ret, state_of, outcome.
  destruct (_handle_http request self) as [[o s1] t1]. simpl.
  destruct (serve rest s1) as [[[outs|e] s2] t2]; reflexivity.
Qed.

Lemma connect_trace_reads (self : Adapter) (corp : string) :
  tasks_of (connect_trace self corp) = [] /\
  (length (created_any (connect_trace self corp)) <= 1)%nat.
Proof.
  unfold connect_trace.
  destruct (registry_get (bots self) (JStr corp)); simpl; split; (reflexivity || lia).
Qed.

Lemma serve_repeated (request : Request.t) (data : string)
    (json_data : json) (corp : string) (ct : json) (k : ConversationType)
    (event : Event) (n : nat) :
  forall self : Adapter,
    outcome (_check_signature request self) = Ok true ->
    if_truthy (Request.content request) = Some data ->
    json_loads data = Ok json_data ->
    getitem json_data "chatbotCorpId" = Ok (JStr corp) ->
    getitem json_data "conversationType" = Ok ct ->
    recognised ct = Some k ->
    parse_obj k json_data = Ok event ->
    create_task (bot_for self corp) event = Ok tt ->
    outcome (serve (repeat request n) self) = Ok (repeat (Ok (Some accepted)) n) /\
    tasks_of (trace (serve (repeat request n) self))
    = repeat (bot_for self corp, event) n /\
    created_any (trace (serve (repeat request n) self))
    = match n with
      | O => []
      | S _ => created_any (connect_trace self corp)
      end.
Proof.
  induction n as [|n IH]; intros self Hsig Hdata Hjson Hcorp Hct Hk Hp Hc.
  - unfold serve, ret, outcome, trace. simpl. repeat split.
  - simpl repeat.
    destruct (serve_cons request (repeat request n) self) as [_ ->].
    rewrite serve_cons_outcome.
    assert (Step : _handle_http request self
                   = (Ok (Some accepted), admitted self corp,
                      (JsonLoads data :: connect_trace self corp
                         ++ [ParseObj k json_data;
                             CreateTask (bot_for self corp) event])%list)).
    { rewrite (handle_http_identified request self data Hsig Hdata json_data corp
                 Hjson Hcorp).
      rewrite dispatch_cases, classify_cases, Hct, Hk, Hp.
      cbv zeta. unfold outcome, trace, state_of. simpl. now rewrite Hc. }
    rewrite Step. unfold state_of at 1 2 3, outcome at 2, trace at 1 3. simpl.
    assert (Hreg : registry_get (bots (admitted self corp)) (JStr corp)
                   = Some (bot_for self corp)).
    { apply (admitted_registered self corp). }
    assert (Hbot : bot_for (admitted self corp) corp = bot_for self corp).
    { unfold bot_for at 1. now rewrite Hreg. }
    assert (Hnew : connect_trace (admitted self corp) corp = []).
    { unfold connect_trace at 1. now rewrite Hreg. }
    assert (Hcfg : adapter_config (admitted self corp) = adapter_config self).
    { unfold admitted. destruct (registry_get (bots self) (JStr corp)); reflexivity. }
    assert (Hsig' : outcome (_check_signature request (admitted self corp)) = Ok true).
    { rewrite check_signature_run. rewrite check_signature_run in Hsig.
      unfold expected_sign in *. rewrite Hcfg.
      destruct (opt_str_eqb _ _); [reflexivity|discriminate]. }
    assert (Hc' : create_task (bot_for (admitted self corp) corp) event = Ok tt).
    { now rewrite Hbot. }
    destruct (IH (admitted self corp) Hsig' Hdata Hjson Hcorp Hct Hk Hp Hc')
      as (Ho & Ht & Hn).
    rewrite Hbot in Ht. rewrite Hnew in Hn.
    destruct (connect_trace_reads self corp) as [Tc _].
    split; [now rewrite Ho|]. split.
    + simpl. rewrite !tasks_of_app, Tc, Ht. reflexivity.
    + simpl. rewrite !created_any_app, Hn. simpl.
      destruct n; simpl; rewrite ?app_nil_r; reflexivity.
Qed.

(** The same accepted delivery, [n] times over: [n] answers 204 and
    [n] tasks, one per delivery and all for the one bot of the
    identity; nothing is deduplicated, and at most one [Bot] is
    constructed. *)
Theorem serve_repeated_delivery (request : Request.t) (data : string)
    (json_data : json) (corp : string) (ct : json) (k : ConversationType)
    (event : Event) (n : nat) (self : Adapter) :
  outcome (_check_signature request self) = Ok true ->
  if_truthy (Request.content request) = Some data ->
  json_loads data = Ok json_data ->
  getitem json_data "chatbotCorpId" = Ok (JStr corp) ->
  getitem json_data "conversationType" = Ok ct ->
  recognised ct = Some k ->
  parse_obj k json_data = Ok event ->
  create_task (bot_for self corp) event = Ok tt ->
  let run := serve (repeat request n) self in
  outcome run = Ok (repeat (Ok (Some accepted)) n) /\
  tasks_of (trace run) = repeat (bot_for self corp, event) n /\
  (length (created_any (trace run)) <= 1)%nat.
Proof.
  intros Hsig Hdata Hjson Hcorp Hct Hk Hp Hc. cbv zeta.
  destruct (serve_repeated request data json_data corp ct k event n self
              Hsig Hdata Hjson Hcorp Hct Hk Hp Hc) as (Ho & Ht & Hn).
  split; [exact Ho|]. split; [exact Ht|].
  rewrite Hn. destruct n; [simpl; lia|].
  apply (connect_trace_reads self corp).
Qed.

End Growth.

(** ** [Bot.send] *)

Section Sending.
Context `{Host} `{Messages}.
Variables (env : Env) (self_bot : Bot) (event : Event) (message : Sendable).
Variables (kwargs : Kwargs.t) (self : Adapter).

Lemma send_resolve :
  outcome (resolve env (send_data event message kwargs) self) =
  match if_truthy (Kwargs.webhook kwargs) with
  | Some w =>
      Ok (w, match if_truthy (Kwargs.secret kwargs) with
             | Some secret =>
                 let timestamp := str_of_int (millis (clock env)) in
                 [("timestamp", timestamp);
                  ("sign", Urllib.quote_plus (calc_hmac_base64 timestamp secret))]
             | None => []
             end)
  | None =>
      match expiry_seconds event with
      | Raise err => Raise err
      | Ok expiry_s =>
          if seconds (clock env) >? expiry_s then Raise SessionExpired
          else Ok (sessionWebhook event, [])
      end
  end.
Proof.
  destruct (if_truthy (Kwargs.webhook kwargs)) as [w|] eqn:Hw.
  - now apply resolve_webhook.
  - now apply resolve_session.
Qed.


(** [send] always supplies the event, so it never raises
    [ApiNotAvailable]. *)
Theorem send_never_unavailable :
  outcome (Bot_send env self_bot event message kwargs self) <> Raise ApiNotAvailable.
Proof.
  intros C. unfold Bot_send in C. apply call_api_raises in C.
  destruct C as [C|[C|[c C]]]; try discriminate.
  rewrite send_resolve in C.
  destruct (if_truthy (Kwargs.webhook kwargs)); [discriminate|].
  destruct (expiry_seconds event) as [x|err] eqn:E.
  - destruct (_ >? _); discriminate.
  - apply expiry_seconds_raises in E. subst err. discriminate.
Qed.





End Sending.

(** * The further properties at work *)

Section MoreExamples.
Import Sample SampleSend.

Lemma call_api_success_witness :
  outcome (_call_api (H := sample_host) (world_of (answering 200 (answer_text 0 "ok")))
             the_bot "send_message" session_reply adapter)
  = Ok (answer 0 "ok").
Proof.
  exact (f_equal outcome
           (call_api_success (H := sample_host)
              (world_of (answering 200 (answer_text 0 "ok"))) the_bot "send_message"
              session_reply adapter (sessionWebhook the_event) [] hello []
              eq_refl eq_refl
              (response 200 (Some (answer_text 0 "ok"))) (answer_text 0 "ok")
              [("errcode", JInt 0); ("errmsg", JStr "ok")]
              eq_refl eq_refl eq_refl eq_refl eq_refl)).
Defined.

Lemma call_api_transport_error_witness :
  outcome (_call_api (H := sample_host) (world_of (failing (RuntimeError "timed out")))
             the_bot "send_message" session_reply adapter)
  = Raise (request_failed (RuntimeError "timed out")).
Proof.
  exact (f_equal outcome
           (call_api_transport_error (H := sample_host)
              (world_of (failing (RuntimeError "timed out"))) the_bot "send_message"
              session_reply adapter (sessionWebhook the_event) [] hello []
              eq_refl eq_refl (RuntimeError "timed out") eq_refl)).
Defined.

Lemma call_api_bad_status_witness :
  outcome (_call_api (H := sample_host) (world_of (answering 500 (answer_text 0 "ok")))
             the_bot "send_message" session_reply adapter)
  = Raise (request_failed (status_error 500)).
Proof.
  exact (f_equal outcome
           (call_api_bad_status (H := sample_host)
              (world_of (answering 500 (answer_text 0 "ok"))) the_bot "send_message"
              session_reply adapter (sessionWebhook the_event) [] hello []
              eq_refl eq_refl
              (response 500 (Some (answer_text 0 "ok"))) eq_refl eq_refl)).
Defined.

Lemma call_api_empty_body_witness :
  outcome (_call_api (H := sample_host) (world_of (bodiless 200))
             the_bot "send_message" session_reply adapter)
  = Raise (request_failed (ValueError "Empty response")).
Proof.
  exact (f_equal outcome
           (call_api_empty_body (H := sample_host)
              (world_of (bodiless 200)) the_bot "send_message"
              session_reply adapter (sessionWebhook the_event) [] hello []
              eq_refl eq_refl (response 200 None) eq_refl eq_refl eq_refl)).
Defined.

Lemma call_api_undecodable_body_witness :
  outcome (_call_api (H := sample_host) (world_of (answering 200 "<html>"))
             the_bot "send_message" session_reply adapter)
  = Raise (request_failed JSONDecodeError).
Proof.
  exact (f_equal outcome
           (call_api_undecodable_body (H := sample_host)
              (world_of (answering 200 "<html>")) the_bot "send_message"
              session_reply adapter (sessionWebhook the_event) [] hello []
              eq_refl eq_refl (response 200 (Some "<html>")) "<html>" JSONDecodeError
              eq_refl eq_refl eq_refl eq_refl)).
Defined.

Lemma call_api_non_object_body_witness :
  outcome (_call_api (H := decoding (JList [JInt 1])) (world_of (answering 200 "[1]"))
             the_bot "send_message" session_reply adapter)
  = Raise (request_failed (status_error 200)).
Proof.
  refine (f_equal outcome
            (call_api_non_object_body (H := decoding (JList [JInt 1]))
               (world_of (answering 200 "[1]")) the_bot "send_message"
               session_reply adapter (sessionWebhook the_event) [] hello []
               eq_refl eq_refl (response 200 (Some "[1]")) "[1]" (JList [JInt 1])
               eq_refl eq_refl eq_refl eq_refl _)).
  intros d. discriminate.
Defined.

Lemma call_api_missing_errcode_witness :
  outcome (_call_api (H := decoding (JDict [("errmsg", JStr "ok")]))
             (world_of (answering 200 "{}")) the_bot "send_message" session_reply adapter)
  = Raise (request_failed (ActionFailed JNone (JStr "ok"))).
Proof.
  exact (call_api_missing_errcode (H := decoding (JDict [("errmsg", JStr "ok")]))
           (world_of (answering 200 "{}")) the_bot "send_message"
           session_reply adapter (sessionWebhook the_event) [] hello []
           eq_refl eq_refl (response 200 (Some "{}")) "{}" [("errmsg", JStr "ok")]
           eq_refl eq_refl eq_refl eq_refl eq_refl).
Defined.

Lemma call_api_no_message_witness :
  _call_api (H := sample_host) (world_of (answering 200 (answer_text 0 "ok")))
    the_bot "send_message" wordless adapter
  = (Raise (ValueError "Message not found"), adapter, [calling_line "send_message"]).
Proof.
  exact (call_api_no_message (H := sample_host)
           (world_of (answering 200 (answer_text 0 "ok"))) the_bot "send_message"
           wordless adapter (sessionWebhook the_event) [] eq_refl (or_introl eq_refl)).
Defined.

Lemma handle_http_undecodable_body_witness :
  _handle_http (H := sample_host) (signed (Some "<html>")) adapter
  = (Raise JSONDecodeError, adapter, [JsonLoads "<html>"]).
Proof.
  exact (handle_http_undecodable_body (H := sample_host) (signed (Some "<html>")) adapter
           "<html>" eq_refl eq_refl JSONDecodeError eq_refl).
Defined.

Lemma handle_http_missing_identity_witness :
  _handle_http (H := sample_host) (signed (Some (answer_text 0 "ok"))) adapter
  = (Raise (KeyError "chatbotCorpId"), adapter, [JsonLoads (answer_text 0 "ok")]).
Proof.
  refine (handle_http_missing_identity (H := sample_host)
            (signed (Some (answer_text 0 "ok"))) adapter (answer_text 0 "ok")
            eq_refl eq_refl (answer 0 "ok") eq_refl _).
  intros d [= <-]. reflexivity.
Defined.

Lemma handle_http_non_string_identity_witness :
  _handle_http (H := decoding (JDict [("chatbotCorpId", JInt 7)]))
    (signed (Some "{}")) adapter
  = (Raise TypeError, connected adapter (JInt 7),
     [JsonLoads "{}"; BotInit (fresh_bot adapter (JInt 7));
      BotConnect (fresh_bot adapter (JInt 7))]).
Proof.
  refine (proj1 (proj2 (handle_http_non_string_identity
                          (H := decoding (JDict [("chatbotCorpId", JInt 7)]))
                          (signed (Some "{}")) adapter "{}" eq_refl eq_refl
                          (JDict [("chatbotCorpId", JInt 7)]) (JInt 7)
                          eq_refl eq_refl _) eq_refl eq_refl)).
  intros s. discriminate.
Defined.

Lemma handle_http_accepted_witness :
  tasks_of (trace (_handle_http (H := sample_host)
                     (signed (Some (payload_text "B1" "2"))) adapter))
  = [(fresh_bot adapter (JStr "B1"),
      {| conversationType := group; conversationId := "cid"; senderId := "u1";
         sessionWebhook := "https://oapi.example/session";
         sessionWebhookExpiredTime := 1700000000000 |})].
Proof.
  exact (f_equal (fun x => tasks_of (trace x))
           (proj1 (handle_http_accepted (H := sample_host)
                     (signed (Some (payload_text "B1" "2"))) adapter
                     (payload_text "B1" "2") eq_refl eq_refl (payload "B1" "2") "B1"
                     eq_refl eq_refl (JStr "2") group
                     {| conversationType := group; conversationId := "cid";
                        senderId := "u1";
                        sessionWebhook := "https://oapi.example/session";
                        sessionWebhookExpiredTime := 1700000000000 |}
                     eq_refl eq_refl eq_refl eq_refl))).
Defined.

Lemma handle_http_task_refused_witness :
  outcome (_handle_http (H := refusing_host)
             (signed (Some (payload_text "B1" "1"))) adapter)
  = Ok (Some accepted) /\
  tasks_of (trace (_handle_http (H := refusing_host)
                     (signed (Some (payload_text "B1" "1"))) adapter)) = [].
Proof.
  pose proof (handle_http_task_refused (H := refusing_host)
                (signed (Some (payload_text "B1" "1"))) adapter
                (payload_text "B1" "1") eq_refl eq_refl (payload "B1" "1") "B1"
                eq_refl eq_refl (JStr "1") private the_event
                (RuntimeError "no running event loop")
                eq_refl eq_refl eq_refl eq_refl) as W.
  split; [exact (f_equal outcome W)|exact (f_equal (fun x => tasks_of (trace x)) W)].
Defined.

Lemma handle_http_missing_type_witness :
  outcome (_handle_http (H := decoding (JDict [("chatbotCorpId", JStr "B1")]))
             (signed (Some "{}")) adapter)
  = Ok None.
Proof.
  exact (f_equal outcome
           (proj1 (handle_http_missing_type
                     (H := decoding (JDict [("chatbotCorpId", JStr "B1")]))
                     (signed (Some "{}")) adapter "{}" eq_refl eq_refl
                     (JDict [("chatbotCorpId", JStr "B1")]) "B1" eq_refl eq_refl
                     (KeyError "conversationType") eq_refl))).
Defined.

Lemma handle_http_invalid_event_witness :
  outcome (_handle_http
             (H := decoding (JDict [("chatbotCorpId", JStr "B1");
                                    ("conversationType", JStr "1")]))
             (signed (Some "{}")) adapter)
  = Ok None.
Proof.
  exact (f_equal outcome
           (handle_http_invalid_event
              (H := decoding (JDict [("chatbotCorpId", JStr "B1");
                                     ("conversationType", JStr "1")]))
              (signed (Some "{}")) adapter "{}" eq_refl eq_refl
              (JDict [("chatbotCorpId", JStr "B1"); ("conversationType", JStr "1")])
              "B1" eq_refl eq_refl (JStr "1") private ValidationError
              eq_refl eq_refl eq_refl)).
Defined.

Lemma serve_repeated_delivery_witness :
  tasks_of (trace (serve (H := sample_host)
                     (repeat (signed (Some (payload_text "B1" "1"))) 3) adapter))
  = repeat (fresh_bot adapter (JStr "B1"), the_event) 3.
Proof.
  exact (proj1 (proj2 (serve_repeated_delivery (H := sample_host)
                         (signed (Some (payload_text "B1" "1")))
                         (payload_text "B1" "1") (payload "B1" "1") "B1" (JStr "1")
                         private the_event 3 adapter
                         eq_refl eq_refl eq_refl eq_refl eq_refl eq_refl eq_refl
                         eq_refl))).
Defined.





(** An expiry beyond the float range: the reply raises the
    [OverflowError] of the division, and nothing is sent. *)
Example unbounded_expiry :
  _call_api (H := sample_host) (world_of (answering 200 (answer_text 0 "ok")))
    the_bot "send_message" unbounded_reply adapter
  = (Raise (OverflowError "integer division result too large for a float"),
     adapter, [calling_line "send_message"]).
Proof. vm_compute. reflexivity. Qed.

(** [int] and [round] on floats, and the division of [int]s, at
    values around the edges: a tie, a fraction above it, a quotient
    that is not a float, a negative one. *)
Example float_arithmetic :
  py_round 2.5 = Ok 2 /\ py_round 3.5 = Ok 4 /\ py_round (-2.5) = Ok (-2) /\
  py_round (0x1.954fc40400832p+30 * 1000) = Ok 1700000001001 /\
  py_int 1700000000.75 = Ok 1700000000 /\ py_int (-1.5) = Ok (-1) /\
  expiry_seconds the_event = Ok 1700000000 /\
  match int_true_div 9007199254740993000 1000 with
  | Ok q => sf_int q
  | Raise e => Raise e
  end = Ok 9007199254740992 /\
  match int_true_div (-1500) 1000 with
  | Ok q => sf_int q
  | Raise e => Raise e
  end = Ok (-1).
Proof. vm_compute. repeat split. Qed.

Lemma serve_registry_grows_witness :
  registry_get (bots (state_of (serve (H := sample_host) deliveries seeded))) (JStr "B1")
  = Some {| self_id := JStr "B1"; oid := 41 |}.
Proof.
  exact (proj2 (proj2 (proj2 (serve_registry_grows (H := sample_host) deliveries seeded)))
           (JStr "B1") {| self_id := JStr "B1"; oid := 41 |} eq_refl).
Defined.

(** The group reply of the sample host, as sent. *)
Example group_reply :
  Data.message (send_data (H0 := sample_messages) group_event (OfStr "hi") no_kwargs)
  = Some [{| seg_type := "text"; seg_data := JStr "@u1 " |};
          {| seg_type := "text"; seg_data := JStr "hi" |};
          {| seg_type := "at"; seg_data := JStr "u1" |}].
Proof. reflexivity. Qed.

End MoreExamples.
